(** * nyaggle.experiment.gbdt: a shallow embedding of [experiment_gbdt]

    The development follows [src/nyaggle/experiment/gbdt.py].  Python
    objects that the function mutates (data frames, the [fit_params]
    dictionary, the local [importances] list, the file system, the
    module logger) live in an explicit store that is threaded through a
    state-and-exception monad; the store survives a raised exception,
    as it does in Python.  Floating point numbers are represented by
    exact rationals: rounding is not part of the model.

    Two functions of the repository are called by the code but are not
    among its sources, [nyaggle.model.cv.cv] and
    [nyaggle.util.plot_importance]; they are modelled from the
    specification and marked as such.  Third-party code (scikit-learn,
    the estimators, the fold splitter) is a parameter of the
    development, the class [Collaborators].  Frames are taken to have
    distinct column labels. *)

From Stdlib Require Import QArith Qabs Ascii.
From stdpp Require Import gmap strings list fin_maps sorting.

Local Open Scope string_scope.

(** ** Python values and exceptions *)

Inductive pyval :=
| PyNone
| PyBool (b : bool)
| PyInt (z : Z)
| PyNum (q : Q)
| PyStr (s : string)
| PyStrList (l : list string).

(** The exceptions the code can raise.  [RuntimeError] is what the
    dispatch raises for an unsupported pair, [FileExistsError] what
    [os.makedirs] raises for an existing output location;
    [ExternalError] stands for whatever a collaborator raises, and
    [InvalidReference] for a reference to no object, which Python cannot
    build. *)
Inductive exn :=
| AssertionError (msg : string)
| KeyError (key : string)
| IndexError (msg : string)
| FileExistsError (path : string)
| IsADirectoryError (path : string)
| RuntimeError (msg : string)
| ValueError (msg : string)
| AttributeError (msg : string)
| ExternalError (msg : string)
| InvalidReference.

Inductive outcome (A : Type) :=
| Ok (a : A)
| Raise (e : exn).
Arguments Ok {A} a.
Arguments Raise {A} e.

(** ** The dispatch table (gbdt.py, lines 163-186) *)

Inductive model_class :=
| LGBMClassifier
| LGBMRegressor
| CatBoostClassifier
| CatBoostRegressor.

(** An evaluation callable: the two scikit-learn metrics of the table,
    or a function of the caller. *)
Inductive eval_fn :=
| roc_auc_score
| mean_squared_error
| custom_eval_fn (f : list Q -> list Q -> Q).

Inductive importance_fn :=
| _get_importance_lgbm
| _get_importance_cat.

Definition table_row : Type :=
  string * string * model_class * eval_fn * string * importance_fn.

Definition gbdt_table : list table_row :=
  [ ("binary", "lgbm", LGBMClassifier, roc_auc_score, "categorical_feature", _get_importance_lgbm);
    ("continuous", "lgbm", LGBMRegressor, mean_squared_error, "categorical_feature", _get_importance_lgbm);
    ("binary", "cat", CatBoostClassifier, roc_auc_score, "cat_features", _get_importance_cat);
    ("continuous", "cat", CatBoostRegressor, mean_squared_error, "cat_features", _get_importance_cat) ].

(** [more_itertools.first_true] with its default [None]. *)
Fixpoint first_true {A : Type} (iterable : list A) (pred : A -> bool) : option A :=
  match iterable with
  | [] => None
  | x :: rest => if pred x then Some x else first_true rest pred
  end.

Definition row_matches (target_type gbdt_type : string) (x : table_row) : bool :=
  match x with
  | (x0, x1, _, _, _, _) => bool_decide (x0 = target_type) && bool_decide (x1 = gbdt_type)
  end.

Definition not_supported_message (gbdt_type target_type : string) : string :=
  "Not supported gbdt_type (" +:+ gbdt_type +:+ ") or type_of_target (" +:+ target_type +:+ ").".

Definition dispatched : Type := model_class * eval_fn * string * importance_fn.

Definition _dispatch_gbdt (gbdt_type target_type : string) (custom_eval : option eval_fn)
  : outcome dispatched :=
  match first_true gbdt_table (row_matches target_type gbdt_type) with
  | None => Raise (RuntimeError (not_supported_message gbdt_type target_type))
  | Some (_, _, model, eval, cat_param, get_importance) =>
      let eval := match custom_eval with Some f => f | None => eval end in
      Ok (model, eval, cat_param, get_importance)
  end.

(** The pairs that have a row in the table. *)
Definition supported (gbdt_type target_type : string) : Prop :=
  (target_type = "binary" \/ target_type = "continuous") /\
  (gbdt_type = "lgbm" \/ gbdt_type = "cat").

(** [s] occurs in [msg]. *)
Definition occurs_in (s msg : string) : Prop :=
  exists pre post : string, msg = pre +:+ s +:+ post.

(** The default row of a supported pair, read off the table. *)
Definition table_default (gbdt_type target_type : string) : option dispatched :=
  match first_true gbdt_table (row_matches target_type gbdt_type) with
  | Some (_, _, model, eval, cat_param, get_importance) =>
      Some (model, eval, cat_param, get_importance)
  | None => None
  end.

(** ** Data frames and series (the part of pandas the function uses) *)

Inductive cell :=
| CNone
| CNum (q : Q)
| CStr (s : string).

Record Column := mkColumn {
  col_name : string;
  col_dtype : string;
  col_values : list cell
}.

(** A frame: its row index (named or not) and its columns, in order. *)
Record DataFrame := mkDataFrame {
  index_name : option string;
  index : list cell;
  columns : list Column
}.

Record Series := mkSeries {
  s_name : option string;
  s_values : list Q
}.

Definition column_names (df : DataFrame) : list string :=
  map col_name (columns df).

(** [id_column in X.columns]. *)
Definition has_column (c : string) (df : DataFrame) : bool :=
  bool_decide (c ∈ column_names df).

(** [X[c]]: the first column with that label. *)
Definition get_column (c : string) (df : DataFrame) : option Column :=
  first_true (columns df) (fun col => bool_decide (col_name col = c)).

(** [X[c].dtype.name in names]. *)
Definition dtype_in (names : list string) (c : string) (df : DataFrame) : bool :=
  match get_column c df with
  | Some col => bool_decide (col_dtype col ∈ names)
  | None => false
  end.

(** [[c for c in X.columns if X[c].dtype.name in ['object', 'category']]]
    (gbdt.py, line 113). *)
Definition auto_categorical (df : DataFrame) : list string :=
  filter (fun c => dtype_in ["object"; "category"] c df) (column_names df).

(** [X.set_index(c)]: column [c] becomes the index and leaves the
    columns; [KeyError] when there is no such column (the frame is then
    left as it was). *)
Definition set_index (c : string) (df : DataFrame) : outcome DataFrame :=
  match get_column c df with
  | None => Raise (KeyError c)
  | Some col =>
      Ok {| index_name := Some c;
            index := col_values col;
            columns := filter (fun x => col_name x ≠ c) (columns df) |}
  end.

(** Row selection by position, [X.iloc[rows]]. *)
Definition take_rows {A : Type} (rows : list nat) (l : list A) : list A :=
  omap (fun i => l !! i) rows.

Definition iloc (rows : list nat) (df : DataFrame) : DataFrame :=
  {| index_name := index_name df;
     index := take_rows rows (index df);
     columns := map (fun c => {| col_name := col_name c; col_dtype := col_dtype c;
                                 col_values := take_rows rows (col_values c) |})
                    (columns df) |}.

(** ** The store *)

Definition loc := nat.

Inductive log_record :=
| LogGBDT (gbdt_type : string)
| LogExperiment (logging_directory : string)
| LogParams (model_params : gmap string pyval)
| LogFeatures (features : list string)
| LogCategorical (categorical : list string)
| LogFold (fold : nat) (score : option Q).

(** What a file holds, as a sequence of written pieces. *)
Inductive chunk :=
| TextLine (r : log_record)
| NpyArray (a : option (list Q))
| PngBarChart (bars : list (string * Q))
| CsvTable (header : list (option string)) (rows : list (list cell))
| RawData (s : string).

(** One per-fold importance table: rows of (feature, importance). *)
Definition importance_table : Type := list (string * Q).

Record World := mkWorld {
  frames : gmap loc DataFrame;             (* DataFrame objects *)
  dicts : gmap loc (gmap string pyval);    (* dict objects *)
  lists : gmap loc (list importance_table);  (* list objects *)
  next_loc : loc;                          (* allocation counter *)
  dirs : gset string;                      (* existing directories *)
  files : gmap string (list chunk);        (* existing regular files *)
  handlers : list string;                  (* FileHandlers of the module logger *)
  clock : list Q                           (* readings time.time() will return *)
}.

(** ** State and exception monad *)

Definition M (A : Type) : Type := World -> outcome A * World.

Definition ret {A : Type} (a : A) : M A := fun w => (Ok a, w).

Definition raise {A : Type} (e : exn) : M A := fun w => (Raise e, w).

Definition bind {A B : Type} (m : M A) (k : A -> M B) : M B :=
  fun w => match m w with
           | (Ok a, w') => k a w'
           | (Raise e, w') => (Raise e, w')
           end.

Notation "'let*' x := m 'in' k" := (bind m (fun x => k))
  (at level 10, x pattern, m at level 100, k at level 200).
Notation "'run' m 'in' k" := (bind m (fun _ => k))
  (at level 10, m at level 100, k at level 200).

Definition lift {A : Type} (o : outcome A) : M A := fun w => (o, w).

Definition py_assert (b : bool) (msg : string) : M unit :=
  if b then ret tt else raise (AssertionError msg).

(** ** Store primitives *)

Definition set_frames (f : gmap loc DataFrame) (w : World) : World :=
  mkWorld f (dicts w) (lists w) (next_loc w) (dirs w) (files w) (handlers w) (clock w).
Definition set_dicts (d : gmap loc (gmap string pyval)) (w : World) : World :=
  mkWorld (frames w) d (lists w) (next_loc w) (dirs w) (files w) (handlers w) (clock w).
Definition set_lists (l : gmap loc (list importance_table)) (w : World) : World :=
  mkWorld (frames w) (dicts w) l (next_loc w) (dirs w) (files w) (handlers w) (clock w).
Definition set_next_loc (n : loc) (w : World) : World :=
  mkWorld (frames w) (dicts w) (lists w) n (dirs w) (files w) (handlers w) (clock w).
Definition set_dirs (d : gset string) (w : World) : World :=
  mkWorld (frames w) (dicts w) (lists w) (next_loc w) d (files w) (handlers w) (clock w).
Definition set_files (f : gmap string (list chunk)) (w : World) : World :=
  mkWorld (frames w) (dicts w) (lists w) (next_loc w) (dirs w) f (handlers w) (clock w).
Definition set_handlers (h : list string) (w : World) : World :=
  mkWorld (frames w) (dicts w) (lists w) (next_loc w) (dirs w) (files w) h (clock w).
Definition set_clock (c : list Q) (w : World) : World :=
  mkWorld (frames w) (dicts w) (lists w) (next_loc w) (dirs w) (files w) (handlers w) c.

Definition deref {A : Type} (heap : World -> gmap loc A) (l : loc) : M A :=
  fun w => match heap w !! l with
           | Some a => (Ok a, w)
           | None => (Raise InvalidReference, w)
           end.

Definition get_frame : loc -> M DataFrame := deref frames.
Definition get_dict : loc -> M (gmap string pyval) := deref dicts.
Definition get_list : loc -> M (list importance_table) := deref lists.

Definition put_frame (l : loc) (df : DataFrame) : M unit :=
  fun w => (Ok tt, set_frames (<[l := df]> (frames w)) w).
Definition put_dict (l : loc) (d : gmap string pyval) : M unit :=
  fun w => (Ok tt, set_dicts (<[l := d]> (dicts w)) w).
Definition put_list (l : loc) (x : list importance_table) : M unit :=
  fun w => (Ok tt, set_lists (<[l := x]> (lists w)) w).

(** A new object: [{}] or [[]]. *)
Definition new_dict : M loc :=
  fun w => (Ok (next_loc w),
            set_next_loc (S (next_loc w)) (set_dicts (<[next_loc w := ∅]> (dicts w)) w)).
Definition new_list : M loc :=
  fun w => (Ok (next_loc w),
            set_next_loc (S (next_loc w)) (set_lists (<[next_loc w := []]> (lists w)) w)).

(** [X.set_index(c, inplace=True)] on the object at [l]. *)
Definition set_index_inplace (c : string) (l : loc) : M unit :=
  let* df := get_frame l in
  let* df' := lift (set_index c df) in
  put_frame l df'.

(** [time.time()]: the next reading of the clock. *)
Definition time_time : M Q :=
  fun w => (Ok (hd 0%Q (clock w)), set_clock (tl (clock w)) w).

(** ** File system and logger

    A path is identified by its string.  [os.makedirs] creates the
    directory itself; a write creates or replaces the regular file. *)

Definition endswith (s suffix : string) : bool :=
  (String.length suffix <=? String.length s)%nat &&
  String.eqb (String.substring (String.length s - String.length suffix) (String.length suffix) s) suffix.

(** [os.path.join(a, b)] (posixpath). *)
Definition os_path_join (a b : string) : string :=
  if String.prefix "/" b then b
  else if String.eqb a "" || endswith a "/" then a +:+ b
  else a +:+ "/" +:+ b.

(** [os.makedirs(path, exist_ok=exist_ok)]. *)
Definition os_makedirs (path : string) (exist_ok : bool) : M unit :=
  fun w =>
    if decide (path ∈ dirs w) then
      if exist_ok then (Ok tt, w) else (Raise (FileExistsError path), w)
    else if decide (is_Some (files w !! path)) then (Raise (FileExistsError path), w)
    else (Ok tt, set_dirs ({[path]} ∪ dirs w) w).

(** Open for writing, truncating. *)
Definition write_file (path : string) (c : chunk) : M unit :=
  fun w =>
    if decide (path ∈ dirs w) then (Raise (IsADirectoryError path), w)
    else (Ok tt, set_files (<[path := [c]]> (files w)) w).

Definition append_file (c : chunk) (w : World) (path : string) : World :=
  set_files (<[path := (default [] (files w !! path) ++ [c])%list]> (files w)) w.

(** [logger.addHandler(FileHandler(path))]: the file is opened for
    appending at once, and the handler stays on the module logger. *)
Definition logger_addHandler (path : string) : M unit :=
  fun w =>
    if decide (path ∈ dirs w) then (Raise (IsADirectoryError path), w)
    else (Ok tt, set_handlers (handlers w ++ [path])%list
                   (set_files (<[path := default [] (files w !! path)]> (files w)) w)).

(** [logger.info(...)]: one line to every attached handler. *)
Definition logger_info (r : log_record) : M unit :=
  fun w => (Ok tt, foldl (append_file (TextLine r)) w (handlers w)).

(** [np.save(file, arr)]: the [.npy] extension is added when missing;
    [None] is saved as a pickled object array. *)
Definition np_save (file : string) (arr : option (list Q)) : M unit :=
  write_file (if endswith file ".npy" then file else file +:+ ".npy") (NpyArray arr).

(** ** Importance tables: [pd.concat], [groupby.mean], [sort_values] *)

Definition pd_concat (objs : list importance_table) : outcome importance_table :=
  match objs with
  | [] => Raise (ValueError "No objects to concatenate")
  | _ => Ok (concat objs)
  end.

Definition Qsum (l : list Q) : Q := foldr Qplus 0%Q l.

Definition Qmean (l : list Q) : Q :=
  (Qsum l / inject_Z (Z.of_nat (length l)))%Q.

Definition scores_of (feature : string) (t : importance_table) : list Q :=
  map snd (filter (fun r => fst r = feature) t).

(** [t.groupby('feature')['importance'].mean().reset_index()]: one row
    per feature, groups in ascending order of the key. *)
Definition groupby_mean (t : importance_table) : importance_table :=
  map (fun k => (k, Qmean (scores_of k t))) (merge_sort String.le (remove_dups (map fst t))).

Definition importance_ge (a b : string * Q) : Prop := (snd b <= snd a)%Q.

Global Instance importance_ge_dec : RelDecision importance_ge.
Proof.
  intros a b. unfold importance_ge.
  destruct (Qlt_le_dec (snd a) (snd b)) as [H|H]; [right | left]; [|exact H].
  intros H'. exact (Qlt_not_le _ _ H H').
Defined.

(** [t.sort_values(by='importance', ascending=False)]. *)
Definition sort_values_desc (t : importance_table) : importance_table :=
  merge_sort importance_ge t.

(** ** Arguments and results *)

(** An estimator object before fitting, built from [model_params]. *)
Record estimator := mkEstimator {
  est_class : model_class;
  est_params : gmap string pyval
}.

(** The parameters of [experiment_gbdt].  Frames and [fit_params] are
    passed by reference. *)
Module Args.
Record t := mk {
  logging_directory : string;
  model_params : gmap string pyval;
  id_column : string;
  X_train : loc;
  y : Series;
  X_test : option loc;
  eval : option eval_fn;
  gbdt_type : string;
  fit_params : option loc;
  nfolds : Z;
  overwrite : bool;
  stratified : bool;
  seed : Z;
  categorical_feature : option (list string);
  submission_filename : string
}.
End Args.

Definition write_at (positions : list nat) (values : list Q) (arr : list Q) : list Q :=
  foldl (fun a iv => <[fst iv := snd iv]> a) arr (zip positions values).

Fixpoint n_classes (labels : list Q) : nat :=
  match labels with
  | [] => 0
  | x :: rest => if existsb (Qeq_bool x) rest then n_classes rest else S (n_classes rest)
  end.

Definition Qadd_lists (a b : list Q) : list Q :=
  zip_with Qplus a b.

(** Modelled from the spec: [nyaggle.util.plot_importance], which is not
    under src/.  It draws the bar chart of the table it is given, in the
    table's order, into the file at [path]. *)
Definition plot_importance (importance : importance_table) (path : string) : M unit :=
  write_file path (PngBarChart importance).

(** [submit.to_csv(path, index=False)]. *)
Definition to_csv (header : list (option string)) (rows : list (list cell)) (path : string)
  : M unit :=
  write_file path (CsvTable header rows).

(** [pd.DataFrame({'feature': features, 'importance': importance})]. *)
Definition importance_frame (features : list string) (importance : list Q)
  : outcome importance_table :=
  if bool_decide (length features = length importance)
  then Ok (zip features importance)
  else Raise (ValueError "All arrays must be of the same length").

(** [pd.DataFrame({id_column: index, name: predicted})] as header and
    rows.  A scalar [None] is broadcast; equal keys leave one column. *)
Definition submit_frame (id_column : string) (index : list cell) (name : option string)
    (predicted : option (list Q)) : outcome (list (option string) * list (list cell)) :=
  match predicted with
  | Some p =>
      if bool_decide (length index = length p) then
        if bool_decide (name = Some id_column)
        then Ok ([name], map (fun v => [CNum v]) p)
        else Ok ([Some id_column; name], zip_with (fun i v => [i; CNum v]) index p)
      else Raise (ValueError "All arrays must be of the same length")
  | None =>
      if bool_decide (name = Some id_column)
      then Ok ([name], map (fun _ => [CNone]) index)
      else Ok ([Some id_column; name], map (fun i => [i; CNone]) index)
  end.

(** The per-fold hook of [cv]: fold number, fitted model, training rows
    and training labels. *)
Definition fold_callback (fitted : Type) : Type :=
  nat -> fitted -> DataFrame -> list Q -> M unit.

(** The arguments of the call of [cv] (gbdt.py, lines 137-139). *)
Module CvArgs.
Record t {fitted : Type} := mk {
  models : list estimator;
  X_train : loc;
  y : Series;
  X_test : option loc;
  nfolds : Z;
  on_each_fold : option (fold_callback fitted);
  eval : option eval_fn;
  stratified : bool;
  seed : Z;
  fit_params : loc
}.
Arguments t : clear implicits.
End CvArgs.

(** The collaborators the function only calls: scikit-learn's
    [type_of_target] and metrics, the estimators' [fit] and [predict],
    the backends' importance getters, and the fold splitter. *)
Class Collaborators := {
  fitted : Type;
  type_of_target : Series -> string;
  sklearn_roc_auc_score : list Q -> list Q -> Q;
  sklearn_mean_squared_error : list Q -> list Q -> Q;
  fit : estimator -> DataFrame -> list Q -> gmap string pyval -> outcome fitted;
  predict : fitted -> DataFrame -> list Q;
  feature_importance : importance_fn -> fitted -> list Q;
  kfold_split : Z -> bool -> nat -> list Q -> list (list nat)
}.

Section experiment.

Context {collaborators : Collaborators}.

Definition call_eval (f : eval_fn) (y_true y_pred : list Q) : Q :=
  match f with
  | roc_auc_score => sklearn_roc_auc_score y_true y_pred
  | mean_squared_error => sklearn_mean_squared_error y_true y_pred
  | custom_eval_fn g => g y_true y_pred
  end.

(** What [cv] returns. *)
Record CVResult := mkCVResult {
  cv_predicted_oof : list Q;
  cv_predicted_test : option (list Q);
  cv_scores : list Q;
  cv_models : list fitted
}.

(** State of the fold loop: the out-of-fold array, the running sum of
    the test predictions, the fold scores and the fitted models. *)
Record cv_state := mkCvState {
  st_oof : list Q;
  st_test : option (list Q);
  st_scores : list Q;
  st_models : list fitted
}.

(** Modelled from the spec: one iteration of the Cross-Validation
    Driver (spec 4.2, step 2), for fold [i] holding out [held_out]. *)
Definition cv_fold (c : CvArgs.t fitted) (Xtr : DataFrame) (Xte : option DataFrame)
    (i : nat) (held_out : list nat) (st : cv_state) : M cv_state :=
  let labels := s_values (CvArgs.y c) in
  let train_rows := filter (fun r => r ∉ held_out) (seq 0 (length (index Xtr))) in
  let* model :=
    match CvArgs.models c !! i with
    | Some m => ret m
    | None => raise (IndexError "list index out of range")
    end in
  let* params := get_dict (CvArgs.fit_params c) in
  let* fitted_model :=
    lift (fit model (iloc train_rows Xtr) (take_rows train_rows labels) params) in
  let held_pred := predict fitted_model (iloc held_out Xtr) in
  let oof := write_at held_out held_pred (st_oof st) in
  let test :=
    match Xte, st_test st with
    | Some t, Some acc => Some (Qadd_lists acc (predict fitted_model t))
    | _, _ => None
    end in
  run match CvArgs.on_each_fold c with
      | Some callback =>
          callback i fitted_model (iloc train_rows Xtr) (take_rows train_rows labels)
      | None => ret tt
      end in
  let score :=
    match CvArgs.eval c with
    | Some f => Some (call_eval f (take_rows held_out labels) held_pred)
    | None => None
    end in
  run logger_info (LogFold i score) in
  ret {| st_oof := oof;
         st_test := test;
         st_scores := (st_scores st ++ match score with Some s => [s] | None => [] end)%list;
         st_models := (st_models st ++ [fitted_model])%list |}.

Fixpoint cv_loop (c : CvArgs.t fitted) (Xtr : DataFrame) (Xte : option DataFrame)
    (i : nat) (folds : list (list nat)) (st : cv_state) : M cv_state :=
  match folds with
  | [] => ret st
  | held_out :: rest =>
      let* st' := cv_fold c Xtr Xte i held_out st in
      cv_loop c Xtr Xte (S i) rest st'
  end.

(** Modelled from the spec: the Cross-Validation Driver
    [nyaggle.model.cv.cv], which is not under src/ (spec 4.2). *)
Definition cv (c : CvArgs.t fitted) : M CVResult :=
  let labels := s_values (CvArgs.y c) in
  let k := Z.to_nat (CvArgs.nfolds c) in
  let* Xtr := get_frame (CvArgs.X_train c) in
  let* Xte :=
    match CvArgs.X_test c with
    | Some t => let* f := get_frame t in ret (Some f)
    | None => ret None
    end in
  let n := length (index Xtr) in
  if bool_decide (n < k)%nat then
    raise (ValueError "nfolds exceeds the number of rows")
  else if CvArgs.stratified c && bool_decide (n_classes labels < k)%nat then
    raise (ValueError "fewer classes than folds")
  else
    let folds := take k (kfold_split (CvArgs.seed c) (CvArgs.stratified c) k labels
                         ++ replicate k [])%list in
    let st0 := {| st_oof := replicate n 0%Q;
                  st_test := match Xte with
                             | Some t => Some (replicate (length (index t)) 0%Q)
                             | None => None
                             end;
                  st_scores := [];
                  st_models := [] |} in
    let* st := cv_loop c Xtr Xte 0 folds st0 in
    let overall :=
      match CvArgs.eval c with
      | Some f => [call_eval f labels (st_oof st)]
      | None => []
      end in
    ret {| cv_predicted_oof := st_oof st;
           cv_predicted_test :=
             option_map (map (fun v => v / inject_Z (Z.of_nat k))%Q) (st_test st);
           cv_scores := (st_scores st ++ overall)%list;
           cv_models := st_models st |}.

(** ** [experiment_gbdt] (gbdt.py, lines 22-160) *)

Record GBDTResult := mkGBDTResult {
  predicted_oof : list Q;
  predicted_test : option (list Q);
  scores : list Q;
  models : list fitted;
  importance : importance_table;
  time : Q
}.

(** Lines 112-113. *)
Definition resolved_categorical (a : Args.t) (X_train : DataFrame) : list string :=
  match Args.categorical_feature a with
  | None => auto_categorical X_train
  | Some l => l
  end.

(** Lines 120-121. *)
Definition resolved_stratified (a : Args.t) : bool :=
  if bool_decide (type_of_target (Args.y a) ∉ ["binary"; "multiclass"]) then false
  else Args.stratified a.

(** Lines 93-99: the identifier column becomes the index. *)
Definition normalize_index (a : Args.t) : M unit :=
  let id_column := Args.id_column a in
  let* X_train := get_frame (Args.X_train a) in
  run (if has_column id_column X_train then
         run match Args.X_test a with
             | Some t =>
                 let* X_test := get_frame t in
                 run py_assert (bool_decide (column_names X_train = column_names X_test)) "" in
                 set_index_inplace id_column t
             | None => ret tt
             end in
         set_index_inplace id_column (Args.X_train a)
       else ret tt) in
  let* X_train := get_frame (Args.X_train a) in
  py_assert (bool_decide (index_name X_train = Some id_column)) "index does not match".

(** Lines 125-130: the closure appended to [importances] on each fold. *)
Definition callback (importances : loc) (get_feature_importance : importance_fn)
  : fold_callback fitted :=
  fun fold model x_train y =>
    let* df := lift (importance_frame (column_names x_train)
                       (feature_importance get_feature_importance model)) in
    let* l := get_list importances in
    put_list importances (l ++ [df])%list.

(** Lines 93-135: everything up to the call of [cv].  The result is the
    argument list of that call and the [importances] list object. *)
Definition prepare_run (a : Args.t) : M (CvArgs.t fitted * loc) :=
  let logging_directory := Args.logging_directory a in
  run normalize_index a in
  run os_makedirs logging_directory (Args.overwrite a) in
  run logger_addHandler (os_path_join logging_directory "log.txt") in
  run logger_info (LogGBDT (Args.gbdt_type a)) in
  run logger_info (LogExperiment logging_directory) in
  run logger_info (LogParams (Args.model_params a)) in
  let* X_train := get_frame (Args.X_train a) in
  run logger_info (LogFeatures (column_names X_train)) in
  let categorical_feature := resolved_categorical a X_train in
  run logger_info (LogCategorical categorical_feature) in
  let target_type := type_of_target (Args.y a) in
  let* (model, eval, cat_param_name, get_feature_importance) :=
    lift (_dispatch_gbdt (Args.gbdt_type a) target_type (Args.eval a)) in
  let models := replicate (Z.to_nat (Args.nfolds a)) (mkEstimator model (Args.model_params a)) in
  let stratified := resolved_stratified a in
  let* importances := new_list in
  let* fit_params :=
    match Args.fit_params a with
    | None => new_dict
    | Some d => ret d
    end in
  let* d := get_dict fit_params in
  run (if bool_decide (cat_param_name ∉ dom d)
       then put_dict fit_params (<[cat_param_name := PyStrList categorical_feature]> d)
       else ret tt) in
  ret ({| CvArgs.models := models;
          CvArgs.X_train := Args.X_train a;
          CvArgs.y := Args.y a;
          CvArgs.X_test := Args.X_test a;
          CvArgs.nfolds := Args.nfolds a;
          CvArgs.on_each_fold := Some (callback importances get_feature_importance);
          CvArgs.eval := Some eval;
          CvArgs.stratified := stratified;
          CvArgs.seed := Args.seed a;
          CvArgs.fit_params := fit_params |}, importances).

(** Lines 141-160: aggregation of the importances, the artifacts and the
    returned tuple. *)
Definition store_results (a : Args.t) (start_time : Q) (importances : loc)
    (result : CVResult) : M GBDTResult :=
  let logging_directory := Args.logging_directory a in
  let* tables := get_list importances in
  let* importance := lift (pd_concat tables) in
  let importance := groupby_mean importance in
  let importance := sort_values_desc importance in
  run plot_importance importance (os_path_join logging_directory "feature_importance.png") in
  run np_save (os_path_join logging_directory "oof") (Some (cv_predicted_oof result)) in
  run np_save (os_path_join logging_directory "test") (cv_predicted_test result) in
  let* X_test_index :=
    match Args.X_test a with
    | Some t => let* X_test := get_frame t in ret (index X_test)
    | None => raise (AttributeError "'NoneType' object has no attribute 'index'")
    end in
  let* (header, rows) :=
    lift (submit_frame (Args.id_column a) X_test_index (s_name (Args.y a))
            (cv_predicted_test result)) in
  run to_csv header rows (os_path_join logging_directory (Args.submission_filename a)) in
  let* end_time := time_time in
  let elapsed_time := (end_time - start_time)%Q in
  ret {| predicted_oof := cv_predicted_oof result;
         predicted_test := cv_predicted_test result;
         scores := cv_scores result;
         models := cv_models result;
         importance := importance;
         time := elapsed_time |}.

Definition experiment_gbdt (a : Args.t) : M GBDTResult :=
  let* start_time := time_time in
  let* (c, importances) := prepare_run a in
  let* result := cv c in
  store_results a start_time importances result.

End experiment.

(** * Vocabulary of the statements *)

(** A computation keeps a component of the store when it leaves it as
    it found it, whatever the outcome. *)
Definition keeps {X A : Type} (proj : World -> X) (m : M A) : Prop :=
  forall w, proj (snd (m w)) = proj w.

(** The component does not depend on a given field of the store. *)
Definition ignores {X F : Type} (proj : World -> X) (set : F -> World -> World) : Prop :=
  forall f w, proj (set f w) = proj w.

(** The per-fold hook of the call keeps the component. *)
Definition callback_keeps {collaborators : Collaborators} {X : Type} (proj : World -> X)
    (c : CvArgs.t fitted) : Prop :=
  forall cb, CvArgs.on_each_fold c = Some cb ->
             forall fold model x labels, keeps proj (cb fold model x labels).

(** The dictionary that reaches line 134: the caller's, or a new one. *)
Definition fit_params_loc (a : Args.t) (w : World) : loc :=
  match Args.fit_params a with
  | Some l => l
  | None => S (next_loc w)
  end.

Definition fit_params_before (a : Args.t) (w : World) (d0 : gmap string pyval) : Prop :=
  match Args.fit_params a with
  | Some l => dicts w !! l = Some d0
  | None => d0 = ∅
  end.

(** The frames pass lines 93-99: the training frame has the identifier
    as a column and a test frame, a different object, has the same
    column list; or the training frame is already indexed by it. *)
Definition index_ready (a : Args.t) (w : World) : Prop :=
  exists Xtr, frames w !! Args.X_train a = Some Xtr /\
    if has_column (Args.id_column a) Xtr then
      match Args.X_test a with
      | None => True
      | Some t =>
          t ≠ Args.X_train a /\
          exists Xte, frames w !! t = Some Xte /\ column_names Xtr = column_names Xte
      end
    else index_name Xtr = Some (Args.id_column a).

Definition indexed_by (id_column : string) (l : loc) (w : World) : Prop :=
  exists df, frames w !! l = Some df /\
             index_name df = Some id_column /\ id_column ∉ column_names df.

(** [result] is the descending table of per-feature means of [records]:
    each feature of the records appears once, with the arithmetic mean
    of its scores, and the rows are in descending order of that mean. *)
Definition aggregated (records result : importance_table) : Prop :=
  NoDup (map fst result) /\
  (forall f, f ∈ map fst result <-> f ∈ map fst records) /\
  (forall f v, (f, v) ∈ result ->
               v = (Qsum (scores_of f records)
                    / inject_Z (Z.of_nat (length (scores_of f records))))%Q) /\
  StronglySorted (fun x y => (snd y <= snd x)%Q) result.

(** The table the callback builds for one fold. *)
Definition fold_table {collaborators : Collaborators} (X_train : DataFrame)
    (gi : importance_fn) (m : fitted) : importance_table :=
  zip (column_names X_train) (feature_importance gi m).

(** Copies of an argument record with one field replaced. *)
Definition with_stratified (b : bool) (a : Args.t) : Args.t :=
  {| Args.logging_directory := Args.logging_directory a;
     Args.model_params := Args.model_params a;
     Args.id_column := Args.id_column a;
     Args.X_train := Args.X_train a;
     Args.y := Args.y a;
     Args.X_test := Args.X_test a;
     Args.eval := Args.eval a;
     Args.gbdt_type := Args.gbdt_type a;
     Args.fit_params := Args.fit_params a;
     Args.nfolds := Args.nfolds a;
     Args.overwrite := Args.overwrite a;
     Args.stratified := b;
     Args.seed := Args.seed a;
     Args.categorical_feature := Args.categorical_feature a;
     Args.submission_filename := Args.submission_filename a |}.

Definition with_test (t : option loc) (a : Args.t) : Args.t :=
  {| Args.logging_directory := Args.logging_directory a;
     Args.model_params := Args.model_params a;
     Args.id_column := Args.id_column a;
     Args.X_train := Args.X_train a;
     Args.y := Args.y a;
     Args.X_test := t;
     Args.eval := Args.eval a;
     Args.gbdt_type := Args.gbdt_type a;
     Args.fit_params := Args.fit_params a;
     Args.nfolds := Args.nfolds a;
     Args.overwrite := Args.overwrite a;
     Args.stratified := Args.stratified a;
     Args.seed := Args.seed a;
     Args.categorical_feature := Args.categorical_feature a;
     Args.submission_filename := Args.submission_filename a |}.

Definition with_overwrite (b : bool) (a : Args.t) : Args.t :=
  {| Args.logging_directory := Args.logging_directory a;
     Args.model_params := Args.model_params a;
     Args.id_column := Args.id_column a;
     Args.X_train := Args.X_train a;
     Args.y := Args.y a;
     Args.X_test := Args.X_test a;
     Args.eval := Args.eval a;
     Args.gbdt_type := Args.gbdt_type a;
     Args.fit_params := Args.fit_params a;
     Args.nfolds := Args.nfolds a;
     Args.overwrite := b;
     Args.stratified := Args.stratified a;
     Args.seed := Args.seed a;
     Args.categorical_feature := Args.categorical_feature a;
     Args.submission_filename := Args.submission_filename a |}.

Definition with_eval (f : option eval_fn) (a : Args.t) : Args.t :=
  {| Args.logging_directory := Args.logging_directory a;
     Args.model_params := Args.model_params a;
     Args.id_column := Args.id_column a;
     Args.X_train := Args.X_train a;
     Args.y := Args.y a;
     Args.X_test := Args.X_test a;
     Args.eval := f;
     Args.gbdt_type := Args.gbdt_type a;
     Args.fit_params := Args.fit_params a;
     Args.nfolds := Args.nfolds a;
     Args.overwrite := Args.overwrite a;
     Args.stratified := Args.stratified a;
     Args.seed := Args.seed a;
     Args.categorical_feature := Args.categorical_feature a;
     Args.submission_filename := Args.submission_filename a |}.

Definition with_fit_params (d : option loc) (a : Args.t) : Args.t :=
  {| Args.logging_directory := Args.logging_directory a;
     Args.model_params := Args.model_params a;
     Args.id_column := Args.id_column a;
     Args.X_train := Args.X_train a;
     Args.y := Args.y a;
     Args.X_test := Args.X_test a;
     Args.eval := Args.eval a;
     Args.gbdt_type := Args.gbdt_type a;
     Args.fit_params := d;
     Args.nfolds := Args.nfolds a;
     Args.overwrite := Args.overwrite a;
     Args.stratified := Args.stratified a;
     Args.seed := Args.seed a;
     Args.categorical_feature := Args.categorical_feature a;
     Args.submission_filename := Args.submission_filename a |}.


Definition with_submission_filename (v : string) (a : Args.t) : Args.t :=
  {| Args.logging_directory := Args.logging_directory a;
     Args.model_params := Args.model_params a;
     Args.id_column := Args.id_column a;
     Args.X_train := Args.X_train a;
     Args.y := Args.y a;
     Args.X_test := Args.X_test a;
     Args.eval := Args.eval a;
     Args.gbdt_type := Args.gbdt_type a;
     Args.fit_params := Args.fit_params a;
     Args.nfolds := Args.nfolds a;
     Args.overwrite := Args.overwrite a;
     Args.stratified := Args.stratified a;
     Args.seed := Args.seed a;
     Args.categorical_feature := Args.categorical_feature a;
     Args.submission_filename := v |}.

(** Kinds of estimator classes. *)
Definition is_classifier (m : model_class) : bool :=
  match m with
  | LGBMClassifier | CatBoostClassifier => true
  | LGBMRegressor | CatBoostRegressor => false
  end.

Definition is_lightgbm (m : model_class) : bool :=
  match m with
  | LGBMClassifier | LGBMRegressor => true
  | CatBoostClassifier | CatBoostRegressor => false
  end.

(** Number of handlers of the module logger that write to [path]. *)
Definition handlers_on (path : string) (w : World) : nat :=
  length (filter (fun h => h = path) (handlers w)).

(** The five records that lines 107-114 log. *)
Definition header_records (a : Args.t) (X_train : DataFrame) : list log_record :=
  [ LogGBDT (Args.gbdt_type a);
    LogExperiment (Args.logging_directory a);
    LogParams (Args.model_params a);
    LogFeatures (column_names X_train);
    LogCategorical (resolved_categorical a X_train) ].


(** The file [np.save] writes for a given name. *)
Definition npy_path (file : string) : string :=
  if endswith file ".npy" then file else file +:+ ".npy".

(** * Concrete instances *)

(** ** A small concrete instance, used to run the function

    The estimator predicts the mean of its training labels and reports
    importance [1], [2], ... for its columns; folds are dealt round
    robin. *)
Module Toy.

Definition model : Type := Q * nat.

Definition detect_target (y : Series) : string :=
  if forallb (fun q => Pos.eqb (Qden (Qred q)) 1) (s_values y)
  then (if (n_classes (s_values y) <=? 2)%nat then "binary" else "multiclass")
  else "continuous".

Definition squared_error (a b : Q) : Q := ((a - b) * (a - b))%Q.

Definition mse (y_true y_pred : list Q) : Q :=
  Qred (Qmean (zip_with squared_error y_true y_pred)).

Definition auc (y_true y_pred : list Q) : Q := 1%Q.

Definition mae (y_true y_pred : list Q) : Q :=
  Qred (Qmean (zip_with (fun a b => Qabs (a - b)) y_true y_pred)).

Definition fit_mean (e : estimator) (X : DataFrame) (labels : list Q) (params : gmap string pyval)
  : outcome model :=
  Ok (Qred (Qmean labels), length (columns X)).

Definition predict_mean (m : model) (X : DataFrame) : list Q :=
  replicate (length (index X)) (fst m).

Definition importance_of (g : importance_fn) (m : model) : list Q :=
  map (fun i => inject_Z (Z.of_nat i)) (seq 1 (snd m)).

Definition round_robin (seed : Z) (stratified : bool) (k : nat) (labels : list Q)
  : list (list nat) :=
  map (fun i => filter (fun r => r mod k = i) (seq 0 (length labels))) (seq 0 k).

Global Instance collaborators : Collaborators :=
  {| fitted := model;
     type_of_target := detect_target;
     sklearn_roc_auc_score := auc;
     sklearn_mean_squared_error := mse;
     fit := fit_mean;
     predict := predict_mean;
     feature_importance := importance_of;
     kfold_split := round_robin |}.

Definition num (z : Z) : cell := CNum (inject_Z z).

(** Four rows: an identifier, a numeric and a textual feature. *)
Definition train_frame : DataFrame :=
  {| index_name := None;
     index := [num 0; num 1; num 2; num 3];
     columns := [ mkColumn "user_id" "int64" [num 10; num 11; num 12; num 13];
                  mkColumn "age" "float64" [num 1; num 2; num 3; num 4];
                  mkColumn "city" "object" [CStr "a"; CStr "b"; CStr "a"; CStr "b"] ] |}.

Definition test_frame : DataFrame :=
  {| index_name := None;
     index := [num 0; num 1];
     columns := [ mkColumn "user_id" "int64" [num 20; num 21];
                  mkColumn "age" "float64" [num 5; num 6];
                  mkColumn "city" "object" [CStr "b"; CStr "a"] ] |}.

Definition labels : Series :=
  {| s_name := Some "target"; s_values := [1 # 2; 3 # 2; 5 # 2; 7 # 2]%Q |}.

Definition empty_world : World :=
  {| frames := ∅; dicts := ∅; lists := ∅; next_loc := 0;
     dirs := ∅; files := ∅; handlers := []; clock := [0%Q; 5%Q] |}.

(** The caller holds the training frame at 0 and the test frame at 1. *)
Definition world0 : World :=
  set_next_loc 2 (set_frames (<[0 := train_frame]> (<[1 := test_frame]> ∅)) empty_world).

Definition args0 : Args.t :=
  {| Args.logging_directory := "out";
     Args.model_params := ∅;
     Args.id_column := "user_id";
     Args.X_train := 0;
     Args.y := labels;
     Args.X_test := Some 1;
     Args.eval := None;
     Args.gbdt_type := "lgbm";
     Args.fit_params := None;
     Args.nfolds := 2;
     Args.overwrite := true;
     Args.stratified := false;
     Args.seed := 42;
     Args.categorical_feature := None;
     Args.submission_filename := "submission.csv" |}.

End Toy.

(** ** Inputs of the concrete runs *)
Module Runs.

(** The call of the tests, without the optional test frame. *)
Definition args_no_test : Args.t := with_test None Toy.args0.

(** The output directory is there already. *)
Definition world_out_exists : World := set_dirs {["out"]} Toy.world0.

(** The caller's [fit_params], an object at 2. *)
Definition caller_params : gmap string pyval := {["verbose" := PyInt 10]}.
Definition world_with_params : World :=
  set_next_loc 3 (set_dicts {[2 := caller_params]} Toy.world0).
Definition args_with_params : Args.t := with_fit_params (Some 2) Toy.args0.

(** The same, the caller having chosen the categorical columns there. *)
Definition explicit_params : gmap string pyval :=
  {["categorical_feature" := PyStrList ["age"]; "verbose" := PyInt 10]}.
Definition world_with_explicit_params : World :=
  set_next_loc 3 (set_dicts {[2 := explicit_params]} Toy.world0).

(** A training frame that is already indexed by the identifier, and a
    test frame that still has it as a column. *)
Definition indexed_train_frame : DataFrame :=
  {| index_name := Some "user_id";
     index := [Toy.num 10; Toy.num 11; Toy.num 12; Toy.num 13];
     columns := [ mkColumn "age" "float64" [Toy.num 1; Toy.num 2; Toy.num 3; Toy.num 4];
                  mkColumn "city" "object" [CStr "a"; CStr "b"; CStr "a"; CStr "b"] ] |}.

Definition world_indexed_train : World :=
  set_frames (<[0 := indexed_train_frame]> (<[1 := Toy.test_frame]> ∅)) Toy.world0.


(** The output location exists as a regular file. *)
Definition world_out_is_file : World :=
  set_files {["out" := [RawData "notes"]]} Toy.world0.

(** A submission file outside the output directory. *)
Definition args_absolute : Args.t :=
  with_submission_filename "/tmp/submission.csv" Toy.args0.

(** A third frame, of which the call knows nothing, at 2. *)
Definition world_three_frames : World :=
  set_next_loc 3 (set_frames (<[2 := indexed_train_frame]> (frames Toy.world0)) Toy.world0).

(** A log file that an earlier call has left, with its handler. *)
Definition world_second_call : World :=
  set_handlers ["out/log.txt"]
    (set_files {["out/log.txt" := [RawData "earlier"]]} world_out_exists).

(** The store as line 141 may find it: the list of the callback at 2,
    with the tables of two folds or with none, and a result of [cv]. *)
Definition collected : list importance_table :=
  [ [("age", 1%Q); ("city", 2%Q)]; [("age", 3%Q); ("city", 6%Q)] ].

Definition world_collected : World :=
  set_next_loc 3 (set_lists {[2 := collected]} Toy.world0).

Definition world_nothing_collected : World :=
  set_next_loc 3 (set_lists {[2 := []]} Toy.world0).

Definition cv_result : CVResult :=
  {| cv_predicted_oof := [5 # 2; 3 # 2; 5 # 2; 3 # 2]%Q;
     cv_predicted_test := Some [2; 2]%Q;
     cv_scores := [1; 1; 1]%Q;
     cv_models := [] |}.

End Runs.

(** * Properties *)

(** ** The dispatch table *)

Lemma append_assoc (a b c : string) : (a +:+ b) +:+ c = a +:+ (b +:+ c).
Proof.
  induction a as [|ch a IH]; [reflexivity|].
  change (String ch ((a +:+ b) +:+ c) = String ch (a +:+ (b +:+ c))).
  now rewrite IH.
Qed.

Lemma first_true_unsupported (gbdt_type target_type : string) :
  ~ supported gbdt_type target_type ->
  first_true gbdt_table (row_matches target_type gbdt_type) = None.
Proof.
  intros Hns. unfold gbdt_table; cbn [first_true row_matches].
  repeat (case_bool_decide; subst; cbn [andb]);
    try reflexivity; exfalso; apply Hns; unfold supported; auto.
Qed.

Lemma message_names_both (gbdt_type target_type : string) :
  occurs_in gbdt_type (not_supported_message gbdt_type target_type) /\
  occurs_in target_type (not_supported_message gbdt_type target_type).
Proof.
  unfold not_supported_message, occurs_in; split.
  - eexists _, _; reflexivity.
  - exists ("Not supported gbdt_type (" +:+ gbdt_type +:+ ") or type_of_target ("), ").".
    now rewrite !append_assoc.
Qed.

(** C2. A pair outside {binary, continuous} x {lgbm, cat} makes the
    lookup raise a [RuntimeError] whose message contains both the
    gbdt_type and the target_type as given; each of the four pairs of the
    table yields its row (constructor, metric, categorical parameter
    name, importance getter); and the lookup never touches the store. *)
Theorem dispatch_gbdt_table_lookup :
  (forall gbdt_type target_type custom_eval,
      ~ supported gbdt_type target_type ->
      exists msg,
        _dispatch_gbdt gbdt_type target_type custom_eval = Raise (RuntimeError msg) /\
        occurs_in gbdt_type msg /\ occurs_in target_type msg) /\
  (_dispatch_gbdt "lgbm" "binary" None
     = Ok (LGBMClassifier, roc_auc_score, "categorical_feature", _get_importance_lgbm) /\
   _dispatch_gbdt "lgbm" "continuous" None
     = Ok (LGBMRegressor, mean_squared_error, "categorical_feature", _get_importance_lgbm) /\
   _dispatch_gbdt "cat" "binary" None
     = Ok (CatBoostClassifier, roc_auc_score, "cat_features", _get_importance_cat) /\
   _dispatch_gbdt "cat" "continuous" None
     = Ok (CatBoostRegressor, mean_squared_error, "cat_features", _get_importance_cat)) /\
  (forall gbdt_type target_type custom_eval w,
      snd (lift (_dispatch_gbdt gbdt_type target_type custom_eval) w) = w).
Proof.
  split; [|split].
  - intros g t ce Hns. exists (not_supported_message g t).
    split; [|apply message_names_both].
    unfold _dispatch_gbdt. now rewrite (first_true_unsupported g t Hns).
  - repeat split.
  - reflexivity.
Qed.

(** C2, at two concrete unsupported pairs. *)
Lemma dispatch_gbdt_table_lookup_witness :
  (exists msg, _dispatch_gbdt "xgb" "binary" None = Raise (RuntimeError msg) /\
               occurs_in "xgb" msg /\ occurs_in "binary" msg) /\
  (exists msg, _dispatch_gbdt "lgbm" "multiclass" (Some roc_auc_score) = Raise (RuntimeError msg) /\
               occurs_in "lgbm" msg /\ occurs_in "multiclass" msg).
Proof.
  split; apply (proj1 dispatch_gbdt_table_lookup);
    unfold supported; intros [[H|H] [H'|H']]; discriminate.
Defined.

(** C7. On a supported pair a custom evaluation function replaces the
    metric of the row in the returned tuple, the other three components
    being the row's; a later call without a custom function gets the
    row's own metric again. *)
Theorem dispatch_gbdt_custom_eval_is_per_call (gbdt_type target_type : string) (f : eval_fn) :
  supported gbdt_type target_type ->
  exists model eval cat_param get_importance,
    table_default gbdt_type target_type = Some (model, eval, cat_param, get_importance) /\
    (eval = roc_auc_score \/ eval = mean_squared_error) /\
    forall w,
      (let* first := lift (_dispatch_gbdt gbdt_type target_type (Some f)) in
       let* second := lift (_dispatch_gbdt gbdt_type target_type None) in
       ret (first, second)) w
      = (Ok ((model, f, cat_param, get_importance), (model, eval, cat_param, get_importance)), w).
Proof.
  intros [[Ht|Ht] [Hg|Hg]]; subst; do 4 eexists;
    (split; [reflexivity | split; [auto | reflexivity]]).
Qed.

Lemma dispatch_gbdt_custom_eval_is_per_call_witness :
  exists model eval cat_param get_importance,
    table_default "cat" "continuous" = Some (model, eval, cat_param, get_importance) /\
    (eval = roc_auc_score \/ eval = mean_squared_error) /\
    forall w,
      (let* first := lift (_dispatch_gbdt "cat" "continuous" (Some (custom_eval_fn Toy.mae))) in
       let* second := lift (_dispatch_gbdt "cat" "continuous" None) in
       ret (first, second)) w
      = (Ok ((model, custom_eval_fn Toy.mae, cat_param, get_importance),
             (model, eval, cat_param, get_importance)), w).
Proof.
  apply (dispatch_gbdt_custom_eval_is_per_call "cat" "continuous" (custom_eval_fn Toy.mae)).
  unfold supported; auto.
Defined.

(** ** Reasoning about the monad *)

Lemma bind_run {A B : Type} (m : M A) (k : A -> M B) (w : World) :
  bind m k w = match m w with
               | (Ok a, w') => k a w'
               | (Raise e, w') => (Raise e, w')
               end.
Proof. reflexivity. Qed.

Lemma bind_Ok {A B : Type} (m : M A) (k : A -> M B) w a w' :
  m w = (Ok a, w') -> bind m k w = k a w'.
Proof. intros H. now rewrite bind_run, H. Qed.

Lemma bind_Raise {A B : Type} (m : M A) (k : A -> M B) w e w' :
  m w = (Raise e, w') -> bind m k w = (Raise e, w').
Proof. intros H. now rewrite bind_run, H. Qed.

Lemma bind_Ok_inv {A B : Type} (m : M A) (k : A -> M B) w b w' :
  bind m k w = (Ok b, w') ->
  exists a w1, m w = (Ok a, w1) /\ k a w1 = (Ok b, w').
Proof.
  rewrite bind_run. destruct (m w) as [[a|e] w1]; [|discriminate].
  intros H. now exists a, w1.
Qed.

Lemma deref_Ok_inv {A : Type} (heap : World -> gmap loc A) l w a w' :
  deref heap l w = (Ok a, w') -> w' = w /\ heap w !! l = Some a.
Proof. unfold deref. destruct (heap w !! l); intros H; inversion H; auto. Qed.

Lemma deref_Some {A : Type} (heap : World -> gmap loc A) l w a :
  heap w !! l = Some a -> deref heap l w = (Ok a, w).
Proof. unfold deref. now intros ->. Qed.

Lemma lift_inv {A : Type} (o o' : outcome A) w w' :
  lift o w = (o', w') -> w' = w /\ o = o'.
Proof. unfold lift. intros H; inversion H; auto. Qed.

Lemma keeps_eq {X A : Type} (proj : World -> X) (m : M A) w o w' :
  keeps proj m -> m w = (o, w') -> proj w' = proj w.
Proof. intros H E. specialize (H w). now rewrite E in H. Qed.

Section keeps.
Context {X : Type} (proj : World -> X).

Lemma keeps_ret {A : Type} (a : A) : keeps proj (ret a).
Proof. intros w. reflexivity. Qed.

Lemma keeps_raise {A : Type} (e : exn) : keeps proj (raise (A := A) e).
Proof. intros w. reflexivity. Qed.

Lemma keeps_lift {A : Type} (o : outcome A) : keeps proj (lift o).
Proof. intros w. reflexivity. Qed.

Lemma keeps_bind {A B : Type} (m : M A) (k : A -> M B) :
  keeps proj m -> (forall a, keeps proj (k a)) -> keeps proj (bind m k).
Proof.
  intros Hm Hk w. rewrite bind_run. specialize (Hm w).
  destruct (m w) as [[a|e] w1]; simpl in *; [|exact Hm].
  now rewrite Hk.
Qed.

Lemma keeps_py_assert (b : bool) (msg : string) : keeps proj (py_assert b msg).
Proof. intros w. now destruct b. Qed.

Lemma keeps_deref {A : Type} (heap : World -> gmap loc A) (l : loc) : keeps proj (deref heap l).
Proof. intros w. unfold deref. now destruct (heap w !! l). Qed.

Lemma keeps_put_frame l df : ignores proj set_frames -> keeps proj (put_frame l df).
Proof. intros H w. apply H. Qed.

Lemma keeps_put_dict l d : ignores proj set_dicts -> keeps proj (put_dict l d).
Proof. intros H w. apply H. Qed.

Lemma keeps_put_list l x : ignores proj set_lists -> keeps proj (put_list l x).
Proof. intros H w. apply H. Qed.

Lemma keeps_new_dict : ignores proj set_dicts -> ignores proj set_next_loc -> keeps proj new_dict.
Proof. intros H1 H2 w. unfold new_dict; simpl. now rewrite H2, H1. Qed.

Lemma keeps_new_list : ignores proj set_lists -> ignores proj set_next_loc -> keeps proj new_list.
Proof. intros H1 H2 w. unfold new_list; simpl. now rewrite H2, H1. Qed.

Lemma keeps_time_time : ignores proj set_clock -> keeps proj time_time.
Proof. intros H w. apply H. Qed.

Lemma keeps_os_makedirs path exist_ok : ignores proj set_dirs -> keeps proj (os_makedirs path exist_ok).
Proof.
  intros H w. unfold os_makedirs.
  repeat case_decide; try destruct exist_ok; simpl; auto.
Qed.

Lemma keeps_write_file path c : ignores proj set_files -> keeps proj (write_file path c).
Proof. intros H w. unfold write_file. case_decide; simpl; auto. Qed.

Lemma proj_append_files c (l : list string) w :
  ignores proj set_files -> proj (foldl (append_file c) w l) = proj w.
Proof.
  intros H. revert w. induction l as [|p l IH]; intros w; simpl; [reflexivity|].
  rewrite IH. apply H.
Qed.

Lemma keeps_logger_info r : ignores proj set_files -> keeps proj (logger_info r).
Proof. intros H w. unfold logger_info; simpl. now apply proj_append_files. Qed.

Lemma keeps_logger_addHandler path :
  ignores proj set_files -> ignores proj set_handlers -> keeps proj (logger_addHandler path).
Proof.
  intros H1 H2 w. unfold logger_addHandler. case_decide; simpl; [reflexivity|].
  now rewrite H2, H1.
Qed.

Lemma keeps_set_index_inplace c l : ignores proj set_frames -> keeps proj (set_index_inplace c l).
Proof.
  intros H. unfold set_index_inplace.
  apply keeps_bind; [apply keeps_deref|intros df].
  apply keeps_bind; [apply keeps_lift|intros df'].
  now apply keeps_put_frame.
Qed.

End keeps.

Ltac keeps_step :=
  lazymatch goal with
  | |- ignores _ _ => intros ? ?; reflexivity
  | |- keeps _ (bind _ _) => apply keeps_bind; [|intros ?]
  | |- keeps _ (ret _) => apply keeps_ret
  | |- keeps _ (raise _) => apply keeps_raise
  | |- keeps _ (lift _) => apply keeps_lift
  | |- keeps _ (py_assert _ _) => apply keeps_py_assert
  | |- keeps _ (get_frame _) => apply keeps_deref
  | |- keeps _ (get_dict _) => apply keeps_deref
  | |- keeps _ (get_list _) => apply keeps_deref
  | |- keeps _ (put_frame _ _) => apply keeps_put_frame
  | |- keeps _ (put_dict _ _) => apply keeps_put_dict
  | |- keeps _ (put_list _ _) => apply keeps_put_list
  | |- keeps _ new_dict => apply keeps_new_dict
  | |- keeps _ new_list => apply keeps_new_list
  | |- keeps _ time_time => apply keeps_time_time
  | |- keeps _ (os_makedirs _ _) => apply keeps_os_makedirs
  | |- keeps _ (write_file _ _) => apply keeps_write_file
  | |- keeps _ (logger_info _) => apply keeps_logger_info
  | |- keeps _ (logger_addHandler _) => apply keeps_logger_addHandler
  | |- keeps _ (set_index_inplace _ _) => apply keeps_set_index_inplace
  | |- keeps _ (match ?x with _ => _ end) => destruct x
  end.

Ltac solve_keeps := repeat (cbv zeta; keeps_step); auto.

Section properties.

Context {collaborators : Collaborators}.

(** *** What each phase leaves alone *)

Section frame_rules.
Context {X : Type} (proj : World -> X).

Lemma keeps_normalize_index a : ignores proj set_frames -> keeps proj (normalize_index a).
Proof. intros H. unfold normalize_index. solve_keeps. Qed.

Lemma keeps_callback imp gi fold model x labels :
  ignores proj set_lists -> keeps proj (callback imp gi fold model x labels).
Proof. intros H. unfold callback. solve_keeps. Qed.

Lemma keeps_cv_fold c Xtr Xte i held st :
  ignores proj set_files -> callback_keeps proj c -> keeps proj (cv_fold c Xtr Xte i held st).
Proof.
  intros H Hcb. unfold cv_fold. cbv zeta.
  apply keeps_bind; [solve_keeps|intros model].
  apply keeps_bind; [solve_keeps|intros params].
  apply keeps_bind; [solve_keeps|intros fm].
  apply keeps_bind.
  - destruct (CvArgs.on_each_fold c) as [cb|] eqn:E; [now apply Hcb | apply keeps_ret].
  - intros _. solve_keeps.
Qed.

Lemma keeps_cv_loop c Xtr Xte folds : forall i st,
  ignores proj set_files -> callback_keeps proj c -> keeps proj (cv_loop c Xtr Xte i folds st).
Proof.
  induction folds as [|held rest IH]; intros i st H Hcb; simpl; [apply keeps_ret|].
  apply keeps_bind; [now apply keeps_cv_fold | intros st'; now apply IH].
Qed.

Lemma keeps_cv c : ignores proj set_files -> callback_keeps proj c -> keeps proj (cv c).
Proof.
  intros H Hcb. unfold cv. cbv zeta.
  apply keeps_bind; [solve_keeps|intros Xtr].
  apply keeps_bind; [solve_keeps|intros Xte].
  case_bool_decide; [apply keeps_raise|].
  destruct (_ && _); [apply keeps_raise|].
  apply keeps_bind; [now apply keeps_cv_loop | intros st; apply keeps_ret].
Qed.

Lemma keeps_store_results a start imp result :
  ignores proj set_files -> ignores proj set_clock ->
  keeps proj (store_results a start imp result).
Proof.
  intros H1 H2. unfold store_results, plot_importance, np_save, to_csv.
  solve_keeps.
Qed.

End frame_rules.

(** *** The call of [cv] that [prepare_run] sets up *)

Lemma logger_addHandler_Ok path w x w' :
  logger_addHandler path w = (Ok x, w') ->
  (path ∉ dirs w) /\ handlers w' = (handlers w ++ [path])%list.
Proof.
  unfold logger_addHandler. case_decide; intros E; inversion E; subst. auto.
Qed.

Tactic Notation "bind_inv" hyp(H) "as" simple_intropattern(a) ident(w) ident(E) :=
  let H' := fresh in
  rename H into H'; apply bind_Ok_inv in H'; destruct H' as (a & w & E & H).

Ltac kept proj E :=
  lazymatch type of E with
  | ?m ?w = (?o, ?w') =>
      let K := fresh "K" in
      assert (K : proj w' = proj w)
        by (apply (keeps_eq proj m w o w');
            [first [ solve [solve_keeps]
                   | apply keeps_normalize_index; solve [solve_keeps] ]
            | exact E])
  end.

Ltac kept_objects E :=
  kept frames E; kept dicts E; kept lists E; kept next_loc E.

Lemma prepare_run_inv a w c imp w1 :
  prepare_run a w = (Ok (c, imp), w1) ->
  exists wN Xtr model ev key gi d0,
    normalize_index a w = (Ok tt, wN) /\
    frames wN !! Args.X_train a = Some Xtr /\
    _dispatch_gbdt (Args.gbdt_type a) (type_of_target (Args.y a)) (Args.eval a)
      = Ok (model, ev, key, gi) /\
    imp = next_loc w /\
    c = {| CvArgs.models :=
             replicate (Z.to_nat (Args.nfolds a)) (mkEstimator model (Args.model_params a));
           CvArgs.X_train := Args.X_train a;
           CvArgs.y := Args.y a;
           CvArgs.X_test := Args.X_test a;
           CvArgs.nfolds := Args.nfolds a;
           CvArgs.on_each_fold := Some (callback imp gi);
           CvArgs.eval := Some ev;
           CvArgs.stratified := resolved_stratified a;
           CvArgs.seed := Args.seed a;
           CvArgs.fit_params := fit_params_loc a w |} /\
    frames w1 = frames wN /\
    lists w1 = <[imp := []]> (lists w) /\
    handlers w1 = (handlers w ++ [os_path_join (Args.logging_directory a) "log.txt"])%list /\
    fit_params_before a w d0 /\
    dicts w1 !! fit_params_loc a w
      = Some (if decide (key ∈ dom d0) then d0
              else <[key := PyStrList (resolved_categorical a Xtr)]> d0) /\
    (forall l, l ≠ fit_params_loc a w -> dicts w1 !! l = dicts w !! l).
Proof.
  unfold prepare_run. cbv zeta. intros H.
  bind_inv H as [] wN HN.
  bind_inv H as [] wD HD.
  bind_inv H as [] wH HH.
  bind_inv H as [] w2 H2.
  bind_inv H as [] w3 H3.
  bind_inv H as [] w4 H4.
  bind_inv H as Xtr w5 H5.
  bind_inv H as [] w6 H6.
  bind_inv H as [] w7 H7.
  bind_inv H as [[[model ev] key] gi] w8 H8.
  bind_inv H as imp' w9 H9.
  bind_inv H as fp w10 H10.
  bind_inv H as d w11 H11.
  bind_inv H as [] w12 H12.
  apply deref_Ok_inv in H5 as [-> H5].
  apply lift_inv in H8 as [-> H8].
  apply deref_Ok_inv in H11 as [-> H11].
  unfold ret in H. injection H as <- <- <-.
  unfold new_list in H9. injection H9 as <- <-.
  kept dicts HN; kept lists HN; kept next_loc HN; kept handlers HN.
  kept_objects HD; kept handlers HD.
  kept_objects HH. apply logger_addHandler_Ok in HH as [_ HH].
  kept_objects H2; kept handlers H2.
  kept_objects H3; kept handlers H3.
  kept_objects H4; kept handlers H4.
  kept_objects H6; kept handlers H6.
  kept_objects H7; kept handlers H7.
  assert (Hfr : frames w7 = frames wN) by congruence.
  assert (Hdi : dicts w7 = dicts w) by congruence.
  assert (Hli : lists w7 = lists w) by congruence.
  assert (Hnl : next_loc w7 = next_loc w) by congruence.
  assert (Hha : handlers w7
                = (handlers w ++ [os_path_join (Args.logging_directory a) "log.txt"])%list)
    by congruence.
  assert (HX : frames wN !! Args.X_train a = Some Xtr) by congruence.
  unfold fit_params_loc, fit_params_before, resolved_stratified, resolved_categorical.
  destruct (Args.fit_params a) as [l|] eqn:Efp.
  - unfold ret in H10. injection H10 as <- <-. simpl in H11.
    exists wN, Xtr, model, ev, key, gi, d.
    rewrite Hdi in H11.
    repeat (split; [first [assumption | reflexivity | congruence]|]).
    split; [|split; [|split; [|split; [assumption|]]]].
    + case_bool_decide; [unfold put_dict in H12|unfold ret in H12];
        injection H12 as <-; simpl; congruence.
    + case_bool_decide; [unfold put_dict in H12|unfold ret in H12];
        injection H12 as <-; simpl; congruence.
    + case_bool_decide; [unfold put_dict in H12|unfold ret in H12];
        injection H12 as <-; simpl; congruence.
    + case_bool_decide as Hk; [unfold put_dict in H12|unfold ret in H12];
        injection H12 as <-; simpl; rewrite Hdi.
      * split; [|intros l' Hl'; now rewrite lookup_insert_ne].
        rewrite lookup_insert_eq. now rewrite decide_False.
      * split; [|reflexivity].
        rewrite H11. rewrite decide_True; [reflexivity|].
        now apply dec_stable.
  - unfold new_dict in H10. injection H10 as <- <-. simpl in H11.
    rewrite lookup_insert_eq in H11. injection H11 as <-.
    exists wN, Xtr, model, ev, key, gi, ∅.
    repeat (split; [first [assumption | reflexivity | congruence]|]).
    rewrite bool_decide_true in H12 by (rewrite dom_empty_L; set_solver).
    unfold put_dict in H12. injection H12 as <-. simpl.
    rewrite Hnl, Hdi.
    split; [congruence|]. split; [congruence|]. split; [congruence|].
    split; [reflexivity|]. split.
    + rewrite lookup_insert_eq. rewrite decide_False; [reflexivity|set_solver].
    + intros l' Hl'. now rewrite !lookup_insert_ne.
Qed.

(** *** Stratification (lines 116-121) *)

Lemma resolved_stratified_continuous a :
  type_of_target (Args.y a) = "continuous" -> resolved_stratified a = false.
Proof. unfold resolved_stratified. intros ->. reflexivity. Qed.

(** C6. When [type_of_target] finds the labels continuous, the call of
    [cv] gets [stratified = False] whatever the caller asked for, and a
    run that asks for stratification behaves exactly as the same run
    without it: same outcome, same final store. *)
Theorem continuous_target_is_never_stratified (a : Args.t) (w : World) :
  type_of_target (Args.y a) = "continuous" ->
  (forall c imp w1, prepare_run a w = (Ok (c, imp), w1) -> CvArgs.stratified c = false) /\
  experiment_gbdt (with_stratified true a) w = experiment_gbdt (with_stratified false a) w.
Proof.
  intros Hc. split.
  - intros c imp w1 H.
    apply prepare_run_inv in H as (wN & Xtr & model & ev & key & gi & d0 & _ & _ & _ & _ & -> & _).
    simpl. now apply resolved_stratified_continuous.
  - unfold experiment_gbdt, prepare_run, store_results, normalize_index,
      resolved_stratified, resolved_categorical, with_stratified; simpl.
    rewrite Hc. reflexivity.
Qed.

(** *** The categorical parameter (lines 112-114 and 132-135) *)

(** C10. In the dictionary handed to [cv] as [fit_params], the key named
    by the dispatch row maps to the caller's own value when the caller's
    dictionary had that key (the dictionary is then passed as it was);
    otherwise it maps to the categorical feature list, the caller's
    [categorical_feature] or else the columns detected by dtype, and the
    other keys are the caller's. *)
Theorem categorical_feature_kept_when_given (a : Args.t) (w w1 : World)
    (c : CvArgs.t fitted) (imp : loc) :
  prepare_run a w = (Ok (c, imp), w1) ->
  exists Xtr model ev key gi d0 d1,
    frames w1 !! Args.X_train a = Some Xtr /\
    _dispatch_gbdt (Args.gbdt_type a) (type_of_target (Args.y a)) (Args.eval a)
      = Ok (model, ev, key, gi) /\
    fit_params_before a w d0 /\
    dicts w1 !! CvArgs.fit_params c = Some d1 /\
    (forall v, d0 !! key = Some v -> d1 = d0) /\
    (d0 !! key = None -> d1 = <[key := PyStrList (resolved_categorical a Xtr)]> d0).
Proof.
  intros H.
  apply prepare_run_inv in H
    as (wN & Xtr & model & ev & key & gi & d0 & _ & HX & Hd & _ & -> & Hf & _ & _ & H0 & H1 & _).
  exists Xtr, model, ev, key, gi, d0.
  eexists. split; [congruence|]. split; [exact Hd|]. split; [exact H0|].
  split; [exact H1|]. split.
  - intros v Hv. rewrite decide_True; [reflexivity|].
    apply elem_of_dom. eauto.
  - intros Hn. rewrite decide_False; [reflexivity|].
    now apply not_elem_of_dom.
Qed.

(** *** The identifier column (lines 93-99) *)

Lemma first_true_elem {A : Type} (l : list A) (pred : A -> bool) :
  (exists x, x ∈ l /\ pred x = true) -> exists y, first_true l pred = Some y /\ pred y = true.
Proof.
  induction l as [|h t IH]; intros (x & Hx & Hp).
  - inversion Hx.
  - simpl. destruct (pred h) eqn:E; [eauto|].
    apply IH. apply elem_of_cons in Hx as [->|Hx]; [congruence | eauto].
Qed.

Lemma get_column_Some c df :
  c ∈ column_names df -> exists col, get_column c df = Some col.
Proof.
  intros H. apply list_elem_of_fmap in H as (col & -> & Hin).
  destruct (first_true_elem (columns df) (fun x => bool_decide (col_name x = col_name col)))
    as (y & Hy & _); [|unfold get_column; eauto].
  exists col. split; [assumption | now apply bool_decide_eq_true].
Qed.

Lemma set_index_Ok c df :
  c ∈ column_names df ->
  exists df', set_index c df = Ok df' /\ index_name df' = Some c /\ c ∉ column_names df'.
Proof.
  intros H. destruct (get_column_Some c df H) as (col & Hcol).
  unfold set_index. rewrite Hcol. eexists; split; [reflexivity|]. split; [reflexivity|].
  unfold column_names; simpl. intros Hin.
  apply list_elem_of_fmap in Hin as (x & -> & Hx).
  apply list_elem_of_filter in Hx as [Hx _]. now apply Hx.
Qed.

Lemma set_index_inplace_Ok c l df w :
  frames w !! l = Some df -> c ∈ column_names df ->
  exists df', set_index_inplace c l w = (Ok tt, set_frames (<[l := df']> (frames w)) w) /\
              index_name df' = Some c /\ c ∉ column_names df'.
Proof.
  intros Hl Hc. destruct (set_index_Ok c df Hc) as (df' & Hs & Hi & Hn).
  exists df'. split; [|auto].
  unfold set_index_inplace.
  rewrite (bind_Ok _ _ _ _ _ (deref_Some frames l w df Hl)).
  rewrite Hs. reflexivity.
Qed.

Lemma has_column_true c df : has_column c df = true <-> c ∈ column_names df.
Proof. unfold has_column. apply bool_decide_eq_true. Qed.

Lemma has_column_false c df : has_column c df = false <-> c ∉ column_names df.
Proof. unfold has_column. apply bool_decide_eq_false. Qed.

Lemma normalize_index_already a w Xtr :
  frames w !! Args.X_train a = Some Xtr ->
  Args.id_column a ∉ column_names Xtr ->
  index_name Xtr = Some (Args.id_column a) ->
  normalize_index a w = (Ok tt, w).
Proof.
  intros HX Hc Hi. unfold normalize_index. cbv zeta.
  rewrite (bind_Ok _ _ _ _ _ (deref_Some frames _ w Xtr HX)).
  apply has_column_false in Hc. rewrite Hc.
  rewrite (bind_Ok _ _ w tt w) by reflexivity.
  rewrite (bind_Ok _ _ _ _ _ (deref_Some frames _ w Xtr HX)).
  now rewrite bool_decide_true.
Qed.

Lemma normalize_index_no_index a w Xtr :
  frames w !! Args.X_train a = Some Xtr ->
  Args.id_column a ∉ column_names Xtr ->
  index_name Xtr ≠ Some (Args.id_column a) ->
  normalize_index a w = (Raise (AssertionError "index does not match"), w).
Proof.
  intros HX Hc Hi. unfold normalize_index. cbv zeta.
  rewrite (bind_Ok _ _ _ _ _ (deref_Some frames _ w Xtr HX)).
  apply has_column_false in Hc. rewrite Hc.
  rewrite (bind_Ok _ _ w tt w) by reflexivity.
  rewrite (bind_Ok _ _ _ _ _ (deref_Some frames _ w Xtr HX)).
  now rewrite bool_decide_false.
Qed.

Lemma normalize_index_mismatch a w Xtr t Xte :
  frames w !! Args.X_train a = Some Xtr ->
  Args.id_column a ∈ column_names Xtr ->
  Args.X_test a = Some t ->
  frames w !! t = Some Xte ->
  column_names Xtr ≠ column_names Xte ->
  normalize_index a w = (Raise (AssertionError ""), w).
Proof.
  intros HX Hc Ht HXte Hne. unfold normalize_index. cbv zeta.
  rewrite (bind_Ok _ _ _ _ _ (deref_Some frames _ w Xtr HX)).
  apply has_column_true in Hc. rewrite Hc, Ht.
  rewrite bind_run. rewrite bind_run.
  rewrite (bind_Ok _ _ _ _ _ (deref_Some frames _ w Xte HXte)).
  now rewrite bool_decide_false.
Qed.

Lemma normalize_index_reindexes a w Xtr :
  frames w !! Args.X_train a = Some Xtr ->
  Args.id_column a ∈ column_names Xtr ->
  match Args.X_test a with
  | None => True
  | Some t =>
      t ≠ Args.X_train a /\
      exists Xte, frames w !! t = Some Xte /\ column_names Xtr = column_names Xte
  end ->
  exists wN,
    normalize_index a w = (Ok tt, wN) /\
    indexed_by (Args.id_column a) (Args.X_train a) wN /\
    forall t, Args.X_test a = Some t -> indexed_by (Args.id_column a) t wN.
Proof.
  intros HX Hc Ht. unfold normalize_index. cbv zeta.
  rewrite (bind_Ok _ _ _ _ _ (deref_Some frames _ w Xtr HX)).
  rewrite (proj2 (has_column_true _ _) Hc).
  destruct (Args.X_test a) as [t|].
  - destruct Ht as (Hne & Xte & HXte & Hcols).
    assert (Hc' : Args.id_column a ∈ column_names Xte) by now rewrite <- Hcols.
    destruct (set_index_inplace_Ok _ t Xte w HXte Hc') as (Xte' & Ete & Hi & Hn).
    set (w2 := set_frames (<[t := Xte']> (frames w)) w) in *.
    assert (HX2 : frames w2 !! Args.X_train a = Some Xtr)
      by (unfold w2; simpl; now rewrite lookup_insert_ne).
    destruct (set_index_inplace_Ok _ _ Xtr w2 HX2 Hc) as (Xtr' & Etr & Hi' & Hn').
    set (w3 := set_frames (<[Args.X_train a := Xtr']> (frames w2)) w2) in *.
    exists w3. split; [|split].
    + rewrite bind_run. rewrite bind_run.
      rewrite (bind_Ok _ _ _ _ _ (deref_Some frames _ w Xte HXte)).
      rewrite bool_decide_true by assumption.
      rewrite (bind_Ok _ _ w tt w) by reflexivity.
      rewrite Ete, Etr.
      rewrite (bind_Ok _ _ w3 Xtr' w3)
        by (apply deref_Some; unfold w3; simpl; apply lookup_insert_eq).
      unfold py_assert. now rewrite bool_decide_true.
    + exists Xtr'. split; [unfold w3; simpl; apply lookup_insert_eq | auto].
    + intros t' [= <-]. exists Xte'. split; [|auto].
      unfold w3, w2; simpl. rewrite lookup_insert_ne by auto. apply lookup_insert_eq.
  - destruct (set_index_inplace_Ok _ _ Xtr w HX Hc) as (Xtr' & Etr & Hi' & Hn').
    set (w3 := set_frames (<[Args.X_train a := Xtr']> (frames w)) w) in *.
    exists w3. split; [|split].
    + rewrite bind_run. rewrite (bind_Ok _ _ w tt w) by reflexivity.
      rewrite Etr.
      rewrite (bind_Ok _ _ w3 Xtr' w3)
        by (apply deref_Some; unfold w3; simpl; apply lookup_insert_eq).
      unfold py_assert. now rewrite bool_decide_true.
    + exists Xtr'. split; [unfold w3; simpl; apply lookup_insert_eq | auto].
    + intros t' [=].
Qed.

Lemma first_true_None {A : Type} (l : list A) (pred : A -> bool) :
  (forall x, x ∈ l -> pred x = false) -> first_true l pred = None.
Proof.
  induction l as [|h t IH]; intros Hall; [reflexivity|]. simpl.
  rewrite (Hall h) by apply list_elem_of_here.
  apply IH. intros x Hx. apply Hall. now apply list_elem_of_further.
Qed.

Lemma get_column_None c df : c ∉ column_names df -> get_column c df = None.
Proof.
  intros Hc. unfold get_column. apply first_true_None.
  intros x Hx. apply bool_decide_eq_false. intros <-.
  apply Hc. apply list_elem_of_fmap. eauto.
Qed.

(** The same object passed as training and as test frame: it is
    re-indexed once, and the second [set_index] raises [KeyError]. *)
Lemma normalize_index_same_object a w Xtr :
  frames w !! Args.X_train a = Some Xtr ->
  Args.id_column a ∈ column_names Xtr ->
  Args.X_test a = Some (Args.X_train a) ->
  exists wN,
    normalize_index a w = (Raise (KeyError (Args.id_column a)), wN) /\
    indexed_by (Args.id_column a) (Args.X_train a) wN.
Proof.
  intros HX Hc Ht. unfold normalize_index. cbv zeta.
  rewrite (bind_Ok _ _ _ _ _ (deref_Some frames _ w Xtr HX)).
  rewrite (proj2 (has_column_true _ _) Hc), Ht.
  destruct (set_index_inplace_Ok _ _ Xtr w HX Hc) as (Xtr' & Etr & Hi & Hn).
  set (w2 := set_frames (<[Args.X_train a := Xtr']> (frames w)) w) in *.
  assert (HX2 : frames w2 !! Args.X_train a = Some Xtr')
    by (unfold w2; simpl; apply lookup_insert_eq).
  exists w2. split.
  - rewrite bind_run. rewrite bind_run.
    rewrite (bind_Ok _ _ _ _ _ (deref_Some frames _ w Xtr HX)).
    rewrite bool_decide_true by reflexivity.
    rewrite (bind_Ok _ _ w tt w) by reflexivity.
    rewrite Etr.
    unfold set_index_inplace.
    rewrite (bind_Ok _ _ _ _ _ (deref_Some frames _ w2 Xtr' HX2)).
    unfold set_index. now rewrite (get_column_None _ _ Hn).
  - exists Xtr'. auto.
Qed.

Lemma normalize_index_mutates a w Xtr :
  frames w !! Args.X_train a = Some Xtr ->
  Args.id_column a ∈ column_names Xtr ->
  (forall t, Args.X_test a = Some t ->
             exists Xte, frames w !! t = Some Xte /\ column_names Xtr = column_names Xte) ->
  indexed_by (Args.id_column a) (Args.X_train a) (snd (normalize_index a w)) /\
  forall t, Args.X_test a = Some t ->
            indexed_by (Args.id_column a) t (snd (normalize_index a w)).
Proof.
  intros HX Hc Ht.
  destruct (Args.X_test a) as [t|] eqn:Et.
  - destruct (decide (t = Args.X_train a)) as [->|Hne].
    + destruct (normalize_index_same_object a w Xtr HX Hc Et) as (wN & -> & Hi).
      split; [exact Hi|]. now intros t [= <-].
    + destruct (normalize_index_reindexes a w Xtr HX Hc) as (wN & -> & H1 & H2).
      { rewrite Et. split; [exact Hne | now apply Ht]. }
      split; [exact H1|]. intros t' Ht'. apply H2. congruence.
  - destruct (normalize_index_reindexes a w Xtr HX Hc) as (wN & -> & H1 & H2).
    { now rewrite Et. }
    split; [exact H1|]. intros t' [=].
Qed.

Lemma normalize_index_ready a w :
  index_ready a w -> exists wN, normalize_index a w = (Ok tt, wN).
Proof.
  intros (Xtr & HX & H).
  destruct (has_column (Args.id_column a) Xtr) eqn:E.
  - apply has_column_true in E.
    destruct (normalize_index_reindexes a w Xtr HX E H) as (wN & HN & _). eauto.
  - apply has_column_false in E. exists w. now apply (normalize_index_already a w Xtr).
Qed.

(** *** The run as a whole *)

Lemma keeps_at {X A : Type} (proj : World -> X) (m : M A) w x :
  keeps proj m -> proj w = x -> proj (snd (m w)) = x.
Proof. intros K <-. apply K. Qed.

Lemma experiment_gbdt_run a w :
  experiment_gbdt a w =
  match prepare_run a (snd (time_time w)) with
  | (Ok (c, imp), w1) =>
      match cv c w1 with
      | (Ok result, w2) => store_results a (hd 0%Q (clock w)) imp result w2
      | (Raise e, w2) => (Raise e, w2)
      end
  | (Raise e, w1) => (Raise e, w1)
  end.
Proof.
  unfold experiment_gbdt. rewrite bind_run. simpl.
  rewrite bind_run. destruct (prepare_run a _) as [[[c imp]|e] w1]; reflexivity.
Qed.

Lemma experiment_gbdt_stops_at_index a w e wN :
  normalize_index a (snd (time_time w)) = (Raise e, wN) ->
  experiment_gbdt a w = (Raise e, wN).
Proof.
  intros H. rewrite experiment_gbdt_run.
  unfold prepare_run. cbv zeta. now rewrite (bind_Raise _ _ _ _ _ H).
Qed.

Lemma callback_keeps_prepared {X : Type} (proj : World -> X) a w c imp w1 :
  ignores proj set_lists ->
  prepare_run a w = (Ok (c, imp), w1) -> callback_keeps proj c.
Proof.
  intros Hl H.
  apply prepare_run_inv in H as (wN & Xtr & model & ev & key & gi & d0 & _ & _ & _ & _ & -> & _).
  intros cb [= <-] fold m x labels. now apply keeps_callback.
Qed.

(** Whatever [cv] and the last phase do, they leave alone every
    component that does not depend on files, lists or the clock. *)
Lemma experiment_gbdt_after_prepare {X : Type} (proj : World -> X) a w :
  ignores proj set_files -> ignores proj set_lists -> ignores proj set_clock ->
  proj (snd (experiment_gbdt a w)) = proj (snd (prepare_run a (snd (time_time w)))).
Proof.
  intros Hf Hl Hc. rewrite experiment_gbdt_run.
  destruct (prepare_run a _) as [[[c imp]|e] w1] eqn:Hp; [|reflexivity].
  pose proof (keeps_cv proj c Hf (callback_keeps_prepared proj _ _ _ _ _ Hl Hp) w1) as K.
  destruct (cv c w1) as [[result|e] w2]; simpl in *; [|exact K].
  rewrite <- K. now apply keeps_store_results.
Qed.

(** C5, as the code has it.  With the identifier among the training
    columns and a test frame given, the run stops with an
    [AssertionError], nothing but the clock having been touched, as soon
    as the two column lists differ; when they agree (two distinct
    objects, or no test frame) lines 93-99 succeed and leave both frames
    indexed by the identifier.  With the identifier not among the
    training columns, the run stops unless the training frame's index
    already has that name, in which case lines 93-99 change nothing. *)
Theorem identifier_column_normalization (a : Args.t) (w : World) (Xtr : DataFrame) :
  frames w !! Args.X_train a = Some Xtr ->
  (Args.id_column a ∈ column_names Xtr ->
   (forall t Xte,
       Args.X_test a = Some t -> frames w !! t = Some Xte ->
       column_names Xtr ≠ column_names Xte ->
       experiment_gbdt a w = (Raise (AssertionError ""), snd (time_time w))) /\
   (match Args.X_test a with
    | None => True
    | Some t => t ≠ Args.X_train a /\
                exists Xte, frames w !! t = Some Xte /\ column_names Xtr = column_names Xte
    end ->
    exists wN,
      normalize_index a w = (Ok tt, wN) /\
      indexed_by (Args.id_column a) (Args.X_train a) wN /\
      forall t, Args.X_test a = Some t -> indexed_by (Args.id_column a) t wN)) /\
  (Args.id_column a ∉ column_names Xtr ->
   (index_name Xtr ≠ Some (Args.id_column a) ->
    experiment_gbdt a w = (Raise (AssertionError "index does not match"), snd (time_time w))) /\
   (index_name Xtr = Some (Args.id_column a) -> normalize_index a w = (Ok tt, w))).
Proof.
  intros HX. split; intros Hc; split.
  - intros t Xte Ht HXte Hne. apply experiment_gbdt_stops_at_index.
    now apply (normalize_index_mismatch a _ Xtr t Xte).
  - now apply normalize_index_reindexes.
  - intros Hi. apply experiment_gbdt_stops_at_index.
    now apply (normalize_index_no_index a _ Xtr).
  - intros Hi. now apply (normalize_index_already a w Xtr).
Qed.

(** *** The output directory (line 101) *)

(** C3. When the output directory exists already: with [overwrite] off
    the run raises and leaves every directory and file as it was, and
    what it raises is [FileExistsError] for that directory as soon as
    the frames pass lines 93-99 (which come first); with [overwrite] on
    and such frames, [os.makedirs] succeeds without touching the store
    (the directory is reused as it is), no directory is created or
    removed by the run, and the run goes on to attach the log handler. *)
Theorem existing_output_directory (a : Args.t) (w : World) :
  Args.logging_directory a ∈ dirs w ->
  (Args.overwrite a = false ->
   exists e w', experiment_gbdt a w = (Raise e, w') /\
                dirs w' = dirs w /\ files w' = files w /\
                (index_ready a w -> e = FileExistsError (Args.logging_directory a))) /\
  (Args.overwrite a = true ->
   index_ready a w ->
   os_makedirs (Args.logging_directory a) true w = (Ok tt, w) /\
   dirs (snd (experiment_gbdt a w)) = dirs w /\
   (os_path_join (Args.logging_directory a) "log.txt" ∉ dirs w ->
    handlers (snd (experiment_gbdt a w))
    = (handlers w ++ [os_path_join (Args.logging_directory a) "log.txt"])%list)).
Proof.
  intros Hd.
  destruct (normalize_index a (snd (time_time w))) as [o wN] eqn:HN.
  assert (KD : dirs wN = dirs w)
    by (apply (keeps_eq dirs _ _ _ _ (keeps_normalize_index dirs a ltac:(keeps_step)) HN)).
  assert (KF : files wN = files w)
    by (apply (keeps_eq files _ _ _ _ (keeps_normalize_index files a ltac:(keeps_step)) HN)).
  assert (KH : handlers wN = handlers w)
    by (apply (keeps_eq handlers _ _ _ _ (keeps_normalize_index handlers a ltac:(keeps_step)) HN)).
  assert (HdN : Args.logging_directory a ∈ dirs wN) by now rewrite KD.
  split.
  - intros Ho. destruct o as [[]|e].
    + exists (FileExistsError (Args.logging_directory a)), wN.
      split; [|auto].
      rewrite experiment_gbdt_run. unfold prepare_run. cbv zeta.
      rewrite (bind_Ok _ _ _ _ _ HN). rewrite bind_run.
      unfold os_makedirs. rewrite decide_True by assumption. now rewrite Ho.
    + exists e, wN. split; [now apply experiment_gbdt_stops_at_index|].
      split; [assumption|]. split; [assumption|].
      intros Hr. destruct (normalize_index_ready a (snd (time_time w)) Hr) as (wN' & HN').
      congruence.
  - intros Ho Hr.
    destruct (normalize_index_ready a (snd (time_time w)) Hr) as (wN' & HN').
    assert (wN' = wN) as -> by congruence. clear HN.
    assert (HM : os_makedirs (Args.logging_directory a) (Args.overwrite a) wN = (Ok tt, wN))
      by (unfold os_makedirs; rewrite decide_True by assumption; now rewrite Ho).
    split; [unfold os_makedirs; now rewrite decide_True|].
    split.
    + rewrite experiment_gbdt_after_prepare by keeps_step.
      unfold prepare_run. cbv zeta.
      rewrite (bind_Ok _ _ _ _ _ HN'), (bind_Ok _ _ _ _ _ HM).
      apply keeps_at; [solve_keeps | exact KD].
    + intros Hlog.
      rewrite experiment_gbdt_after_prepare by keeps_step.
      unfold prepare_run. cbv zeta.
      rewrite (bind_Ok _ _ _ _ _ HN'), (bind_Ok _ _ _ _ _ HM).
      rewrite bind_run. unfold logger_addHandler at 1.
      rewrite decide_False by now rewrite KD.
      apply keeps_at; [solve_keeps | simpl; now rewrite KH].
Qed.

(** *** Effects on the caller's objects *)

Lemma experiment_gbdt_frames a w :
  frames (snd (experiment_gbdt a w)) = frames (snd (normalize_index a (snd (time_time w)))).
Proof.
  destruct (normalize_index a (snd (time_time w))) as [[[]|e] wN] eqn:HN.
  - rewrite experiment_gbdt_after_prepare by keeps_step.
    unfold prepare_run. cbv zeta. rewrite (bind_Ok _ _ _ _ _ HN).
    apply keeps_at; [solve_keeps | reflexivity].
  - now rewrite (experiment_gbdt_stops_at_index a w e wN HN).
Qed.

(** C9. The call changes the caller's objects.  If the training frame
    has the identifier among its columns and the test frame, when one is
    given, has the same column list, then after the call, however it
    ends, the frame objects of the caller are indexed by the identifier
    and no longer have it as a column.  If the caller passed a dictionary
    without the categorical key of the dispatch row and the run gets as
    far as calling [cv], then after the call that dictionary has the key,
    bound to a list of column names, its other entries being as
    before. *)
Theorem experiment_gbdt_mutates_its_arguments (a : Args.t) (w : World) :
  (forall Xtr,
      frames w !! Args.X_train a = Some Xtr ->
      Args.id_column a ∈ column_names Xtr ->
      (forall t, Args.X_test a = Some t ->
                 exists Xte, frames w !! t = Some Xte /\ column_names Xtr = column_names Xte) ->
      indexed_by (Args.id_column a) (Args.X_train a) (snd (experiment_gbdt a w)) /\
      forall t, Args.X_test a = Some t ->
                indexed_by (Args.id_column a) t (snd (experiment_gbdt a w))) /\
  (forall l d0 c imp w1 model ev key gi,
      Args.fit_params a = Some l ->
      dicts w !! l = Some d0 ->
      prepare_run a (snd (time_time w)) = (Ok (c, imp), w1) ->
      _dispatch_gbdt (Args.gbdt_type a) (type_of_target (Args.y a)) (Args.eval a)
        = Ok (model, ev, key, gi) ->
      d0 !! key = None ->
      exists cats,
        dicts (snd (experiment_gbdt a w)) !! l = Some (<[key := PyStrList cats]> d0)).
Proof.
  split.
  - intros Xtr HX Hc Ht. unfold indexed_by. rewrite experiment_gbdt_frames.
    apply (normalize_index_mutates a (snd (time_time w)) Xtr HX Hc Ht).
  - intros l d0 c imp w1 model ev key gi Hl Hd0 Hp Hdisp Hkey.
    rewrite experiment_gbdt_after_prepare by keeps_step. rewrite Hp. simpl.
    apply prepare_run_inv in Hp
      as (wN & Xtr & model' & ev' & key' & gi' & d0' & _ & _ & Hd & _ & _ & _ & _ & _ & H0 & H1 & _).
    rewrite Hdisp in Hd. injection Hd as <- <- <- <-.
    unfold fit_params_before, fit_params_loc in *. rewrite Hl in *.
    simpl in H0. rewrite Hd0 in H0. injection H0 as <-.
    rewrite decide_False in H1 by now apply not_elem_of_dom.
    eauto.
Qed.

(** *** What the run returns *)

Lemma store_results_inv a start imp result w r w' :
  store_results a start imp result w = (Ok r, w') ->
  predicted_oof r = cv_predicted_oof result /\
  predicted_test r = cv_predicted_test result /\
  scores r = cv_scores result /\
  models r = cv_models result /\
  Args.X_test a ≠ None /\
  exists tables,
    lists w !! imp = Some tables /\ tables ≠ [] /\
    importance r = sort_values_desc (groupby_mean (concat tables)).
Proof.
  unfold store_results. cbv zeta. intros H.
  bind_inv H as tables w2 H2.
  bind_inv H as t w3 H3.
  bind_inv H as [] w4 H4.
  bind_inv H as [] w5 H5.
  bind_inv H as [] w6 H6.
  bind_inv H as idx w7 H7.
  bind_inv H as [header rows] w8 H8.
  bind_inv H as [] w9 H9.
  bind_inv H as end_time w10 H10.
  unfold ret in H. injection H as <- <-. simpl.
  apply deref_Ok_inv in H2 as [-> H2].
  apply lift_inv in H3 as [-> H3].
  repeat (split; [reflexivity|]).
  split.
  - intros E. rewrite E in H7. discriminate.
  - exists tables. split; [assumption|].
    destruct tables as [|t0 tables]; [discriminate|].
    injection H3 as <-. split; [discriminate | reflexivity].
Qed.

Lemma cv_inv c w result w' :
  cv c w = (Ok result, w') ->
  exists st,
    cv_predicted_oof result = st_oof st /\
    cv_models result = st_models st /\
    cv_scores result
    = (st_scores st ++ match CvArgs.eval c with
                       | Some f => [call_eval f (s_values (CvArgs.y c)) (st_oof st)]
                       | None => []
                       end)%list.
Proof.
  unfold cv. cbv zeta. intros H.
  bind_inv H as Xtr w2 H2.
  bind_inv H as Xte w3 H3.
  case_bool_decide; [discriminate|].
  destruct (_ && _); [discriminate|].
  bind_inv H as st w4 H4.
  unfold ret in H. injection H as <- <-. simpl. eauto.
Qed.

Lemma dispatch_gbdt_custom g t f model ev key gi :
  _dispatch_gbdt g t (Some f) = Ok (model, ev, key, gi) -> ev = f.
Proof.
  unfold _dispatch_gbdt.
  destruct (first_true _ _) as [[[[[[? ?] ?] ?] ?] ?]|]; intros [=]; congruence.
Qed.

(** C4. When the caller gives an evaluation function and the run
    returns, the last entry of the returned scores is that function
    applied to all the labels and the returned out-of-fold predictions,
    the very same value.  (The proof does not use that the target is
    continuous.) *)
Theorem overall_score_is_eval_on_oof (a : Args.t) (w w' : World) (r : GBDTResult)
    (f : eval_fn) :
  type_of_target (Args.y a) = "continuous" ->
  Args.eval a = Some f ->
  experiment_gbdt a w = (Ok r, w') ->
  last (scores r) = Some (call_eval f (s_values (Args.y a)) (predicted_oof r)).
Proof.
  intros _ Hf H. rewrite experiment_gbdt_run in H.
  destruct (prepare_run a _) as [[[c imp]|e] w1] eqn:Hp; [|discriminate].
  destruct (cv c w1) as [[result|e] w2] eqn:Hcv; [|discriminate].
  apply store_results_inv in H as (Ho & _ & Hs & _).
  apply cv_inv in Hcv as (st & Hoof & _ & Hsc).
  apply prepare_run_inv in Hp
    as (wN & Xtr & model & ev & key & gi & d0 & _ & _ & Hd & _ & -> & _).
  rewrite Hf in Hd. apply dispatch_gbdt_custom in Hd as ->.
  simpl in Hsc. rewrite Hs, Hsc, Ho, Hoof. apply last_snoc.
Qed.

(** The run cannot return without a test frame: line 153 reads
    [X_test.index]. *)
Lemma experiment_gbdt_needs_test_frame a w r w' :
  experiment_gbdt a w = (Ok r, w') -> Args.X_test a ≠ None.
Proof.
  intros H. rewrite experiment_gbdt_run in H.
  destruct (prepare_run a _) as [[[c imp]|e] w1]; [|discriminate].
  destruct (cv c w1) as [[result|e] w2]; [|discriminate].
  now apply store_results_inv in H as (_ & _ & _ & _ & H & _).
Qed.

(** *** Feature importances (lines 141-144) *)

Global Instance importance_ge_trans : Transitive importance_ge.
Proof. intros x y z Hxy Hyz. unfold importance_ge in *. now apply Qle_trans with (snd y). Qed.

Global Instance importance_ge_total : Total importance_ge.
Proof.
  intros x y. unfold importance_ge.
  destruct (Qlt_le_dec (snd x) (snd y)) as [H|H]; [right; now apply Qlt_le_weak | now left].
Qed.

Lemma groupby_mean_features t :
  map fst (groupby_mean t) = merge_sort String.le (remove_dups (map fst t)).
Proof.
  unfold groupby_mean. rewrite map_map. simpl. apply map_id.
Qed.

Lemma aggregation_is_sorted_mean (t : importance_table) :
  aggregated t (sort_values_desc (groupby_mean t)).
Proof.
  unfold aggregated, sort_values_desc.
  assert (HP : map fst (merge_sort importance_ge (groupby_mean t))
               ≡ₚ remove_dups (map fst t)).
  { etransitivity; [apply fmap_Permutation, merge_sort_Permutation|].
    change (map fst (groupby_mean t) ≡ₚ remove_dups (map fst t)).
    rewrite groupby_mean_features. apply merge_sort_Permutation. }
  split; [|split; [|split]].
  - rewrite HP. apply NoDup_remove_dups.
  - intros f. rewrite HP. apply elem_of_remove_dups.
  - intros f v Hin.
    rewrite merge_sort_Permutation in Hin.
    unfold groupby_mean in Hin. apply list_elem_of_fmap in Hin as (k & [= -> ->] & _).
    reflexivity.
  - apply (StronglySorted_merge_sort importance_ge).
Qed.

(** C8. When the run returns, its importance table is the aggregate of
    the per-fold tables that the callback had collected when [cv]
    returned: one row per feature name, carrying the arithmetic mean of
    that feature's scores over those tables, in descending order of the
    mean. *)
Theorem importance_is_mean_over_folds_sorted (a : Args.t) (w w' : World) (r : GBDTResult) :
  experiment_gbdt a w = (Ok r, w') ->
  exists c imp w1 result w2 tables,
    prepare_run a (snd (time_time w)) = (Ok (c, imp), w1) /\
    cv c w1 = (Ok result, w2) /\
    lists w2 !! imp = Some tables /\
    aggregated (concat tables) (importance r).
Proof.
  intros H. rewrite experiment_gbdt_run in H.
  destruct (prepare_run a _) as [[[c imp]|e] w1] eqn:Hp; [|discriminate].
  destruct (cv c w1) as [[result|e] w2] eqn:Hcv; [|discriminate].
  apply store_results_inv in H as (_ & _ & _ & _ & _ & tables & Ht & _ & ->).
  exists c, imp, w1, result, w2, tables.
  repeat (split; [reflexivity || assumption|]).
  apply aggregation_is_sorted_mean.
Qed.

(** *** One table per fold

    With [cv] as modelled from the spec, the tables that the callback
    collects are one per fold, in fold order: the features of the
    training frame zipped with the importances of that fold's model. *)

Lemma column_names_iloc rows df : column_names (iloc rows df) = column_names df.
Proof. unfold column_names, iloc; simpl. rewrite map_map. reflexivity. Qed.

Lemma callback_appends imp gi i m x labels w w' (ts : list importance_table) :
  callback imp gi i m x labels w = (Ok tt, w') ->
  lists w !! imp = Some ts ->
  lists w' !! imp = Some (ts ++ [zip (column_names x) (feature_importance gi m)])%list.
Proof.
  unfold callback. intros H Hts.
  bind_inv H as df w2 H2.
  bind_inv H as l w3 H3.
  apply lift_inv in H2 as [-> H2].
  apply deref_Ok_inv in H3 as [-> H3].
  unfold put_list in H. injection H as <-. simpl.
  unfold importance_frame in H2. case_bool_decide; [|discriminate].
  injection H2 as <-. rewrite Hts in H3. injection H3 as <-.
  apply lookup_insert_eq.
Qed.

Lemma cv_fold_collects c Xtr Xte i held st w st' w' imp gi (ts : list importance_table) :
  CvArgs.on_each_fold c = Some (callback imp gi) ->
  cv_fold c Xtr Xte i held st w = (Ok st', w') ->
  lists w !! imp = Some ts ->
  exists m, st_models st' = (st_models st ++ [m])%list /\
            lists w' !! imp = Some (ts ++ [fold_table Xtr gi m])%list.
Proof.
  intros Hcb H Hts. unfold cv_fold in H. cbv zeta in H. rewrite Hcb in H.
  bind_inv H as model w2 H2.
  bind_inv H as params w3 H3.
  bind_inv H as fm w4 H4.
  bind_inv H as [] w5 H5.
  bind_inv H as [] w6 H6.
  unfold ret in H. injection H as <- <-. simpl.
  assert (w2 = w) as -> by (destruct (_ !! i); inversion H2; reflexivity).
  apply deref_Ok_inv in H3 as [-> _].
  apply lift_inv in H4 as [-> _].
  exists fm. split; [reflexivity|].
  kept lists H6. rewrite K.
  unfold fold_table. rewrite <- (column_names_iloc (filter (fun r => r ∉ held)
                                                      (seq 0 (length (index Xtr)))) Xtr).
  now apply (callback_appends _ _ _ _ _ _ _ _ _ H5).
Qed.

Lemma cv_loop_collects c Xtr Xte imp gi folds :
  forall i st w st' w' (ts : list importance_table),
  CvArgs.on_each_fold c = Some (callback imp gi) ->
  cv_loop c Xtr Xte i folds st w = (Ok st', w') ->
  lists w !! imp = Some ts ->
  exists ms, length ms = length folds /\
             st_models st' = (st_models st ++ ms)%list /\
             lists w' !! imp = Some (ts ++ map (fold_table Xtr gi) ms)%list.
Proof.
  induction folds as [|held rest IH]; intros i st w st' w' ts Hcb H Hts; simpl in H.
  - unfold ret in H. injection H as <- <-. exists []. simpl.
    rewrite !app_nil_r. auto.
  - bind_inv H as st1 w1 H1.
    destruct (cv_fold_collects _ _ _ _ _ _ _ _ _ _ _ _ Hcb H1 Hts) as (m & Hm & Hl).
    destruct (IH _ _ _ _ _ _ Hcb H Hl) as (ms & Hlen & Hms & Hl').
    exists (m :: ms). simpl. split; [now rewrite Hlen|].
    split; [now rewrite Hms, Hm, <- app_assoc | now rewrite Hl', <- app_assoc].
Qed.

Lemma cv_collects c w result w' imp gi (ts : list importance_table) :
  CvArgs.on_each_fold c = Some (callback imp gi) ->
  cv c w = (Ok result, w') ->
  lists w !! imp = Some ts ->
  exists Xtr,
    frames w !! CvArgs.X_train c = Some Xtr /\
    length (cv_models result) = Z.to_nat (CvArgs.nfolds c) /\
    lists w' !! imp = Some (ts ++ map (fold_table Xtr gi) (cv_models result))%list.
Proof.
  intros Hcb H Hts. unfold cv in H. cbv zeta in H.
  bind_inv H as Xtr w2 H2.
  bind_inv H as Xte w3 H3.
  case_bool_decide; [discriminate|].
  destruct (_ && _); [discriminate|].
  bind_inv H as st w4 H4.
  unfold ret in H. injection H as <- <-. simpl.
  apply deref_Ok_inv in H2 as [-> H2].
  assert (w3 = w) as ->.
  { destruct (CvArgs.X_test c) as [t|]; [|now inversion H3].
    bind_inv H3 as f w5 H5. apply deref_Ok_inv in H5 as [-> _]. now inversion H3. }
  destruct (cv_loop_collects _ _ _ _ _ _ _ _ _ _ _ _ Hcb H4 Hts) as (ms & Hlen & Hms & Hl).
  simpl in Hms. subst ms.
  exists Xtr. split; [assumption|]. split; [|assumption].
  rewrite Hlen, length_take, length_app, length_replicate. lia.
Qed.

(** The returned table aggregates exactly one table per fold, that of
    the fold's fitted model. *)
Lemma importance_aggregates_one_table_per_fold a w r w' :
  experiment_gbdt a w = (Ok r, w') ->
  exists Xtr gi,
    length (models r) = Z.to_nat (Args.nfolds a) /\
    aggregated (concat (map (fold_table Xtr gi) (models r))) (importance r).
Proof.
  intros H. rewrite experiment_gbdt_run in H.
  destruct (prepare_run a _) as [[[c imp]|e] w1] eqn:Hp; [|discriminate].
  destruct (cv c w1) as [[result|e] w2] eqn:Hcv; [|discriminate].
  apply store_results_inv in H as (_ & _ & _ & Hm & _ & tables & Ht & _ & ->).
  apply prepare_run_inv in Hp
    as (wN & Xtr0 & model & ev & key & gi & d0 & _ & _ & _ & _ & -> & _ & Hl & _).
  eapply cv_collects with (imp := imp) (gi := gi) (ts := []) in Hcv
    as (Xtr & _ & Hlen & Hts);
    [ | reflexivity | rewrite Hl; apply lookup_insert_eq ].
  simpl in Hts, Hlen.
  assert (tables = map (fold_table Xtr gi) (cv_models result)) as ->
    by (apply (inj Some); etransitivity; [symmetry; exact Ht | exact Hts]).
  exists Xtr, gi. rewrite Hm. split; [exact Hlen | apply aggregation_is_sorted_mean].
Qed.

(** ** Further properties of [experiment_gbdt] *)

(** *** Lines 93-99, whenever they pass *)

Lemma first_true_Some_inv {A : Type} (l : list A) (pred : A -> bool) x :
  first_true l pred = Some x -> x ∈ l /\ pred x = true.
Proof.
  induction l as [|h t IH]; simpl; [discriminate|].
  destruct (pred h) eqn:E.
  - intros [= <-]. split; [apply list_elem_of_here | exact E].
  - intros H. destruct (IH H) as [Hin Hp]. split; [now apply list_elem_of_further | exact Hp].
Qed.

Lemma column_names_filter c (cols : list Column) :
  map col_name (filter (fun x => col_name x ≠ c) cols)
  = filter (fun x => x ≠ c) (map col_name cols).
Proof.
  induction cols as [|h t IH]; [reflexivity|].
  cbn [map]. rewrite !filter_cons.
  destruct (decide (col_name h ≠ c)); cbn [map]; now rewrite IH.
Qed.

Lemma set_index_Ok_inv c df df' :
  set_index c df = Ok df' ->
  c ∈ column_names df /\ index_name df' = Some c /\ (c ∉ column_names df') /\
  column_names df' = filter (fun x => x ≠ c) (column_names df).
Proof.
  unfold set_index. destruct (get_column c df) as [col|] eqn:E; [|discriminate].
  intros [= <-]. apply first_true_Some_inv in E as [Hin Hp].
  apply bool_decide_eq_true in Hp.
  split; [unfold column_names; apply list_elem_of_fmap; exists col;
          split; [now symmetry | assumption]|].
  split; [reflexivity|].
  unfold column_names; simpl. split.
  - intros H. apply list_elem_of_fmap in H as (x & -> & Hx).
    apply list_elem_of_filter in Hx as [Hx _]. now apply Hx.
  - apply column_names_filter.
Qed.

Lemma set_index_inplace_Ok_inv c l w w' :
  set_index_inplace c l w = (Ok tt, w') ->
  exists df df',
    frames w !! l = Some df /\ set_index c df = Ok df' /\
    w' = set_frames (<[l := df']> (frames w)) w.
Proof.
  unfold set_index_inplace. intros H.
  bind_inv H as df w1 H1. bind_inv H as df' w2 H2.
  apply deref_Ok_inv in H1 as [-> H1]. apply lift_inv in H2 as [-> H2].
  unfold put_frame in H. injection H as <-. eauto.
Qed.

Lemma py_assert_Ok_inv b msg w w' :
  py_assert b msg w = (Ok tt, w') -> b = true /\ w' = w.
Proof. destruct b; intros H; inversion H; auto. Qed.

Lemma normalize_index_Ok_inv a w wN :
  normalize_index a w = (Ok tt, wN) ->
  exists Xtr0,
    frames w !! Args.X_train a = Some Xtr0 /\
    indexed_by (Args.id_column a) (Args.X_train a) wN /\
    (Args.id_column a ∈ column_names Xtr0 ->
     forall t, Args.X_test a = Some t ->
               indexed_by (Args.id_column a) t wN /\
               exists Xte0, frames w !! t = Some Xte0 /\
                            column_names Xte0 = column_names Xtr0) /\
    (Args.id_column a ∉ column_names Xtr0 -> wN = w).
Proof.
  unfold normalize_index. cbv zeta. intros H.
  bind_inv H as Xtr0 w1 H1. apply deref_Ok_inv in H1 as [-> H1].
  bind_inv H as [] w2 H2.
  bind_inv H as Xtr' w3 H3. apply deref_Ok_inv in H3 as [-> H3].
  apply py_assert_Ok_inv in H as [Hi ->]. apply bool_decide_eq_true in Hi.
  exists Xtr0. split; [assumption|].
  destruct (has_column (Args.id_column a) Xtr0) eqn:Hc.
  - bind_inv H2 as [] w4 H4.
    apply set_index_inplace_Ok_inv in H2 as (df & df' & Hdf & Hset & ->).
    apply set_index_Ok_inv in Hset as (_ & Hn & Hnot & _).
    simpl in H3. rewrite lookup_insert_eq in H3. injection H3 as <-.
    assert (Htr : indexed_by (Args.id_column a) (Args.X_train a)
                    (set_frames (<[Args.X_train a := df']> (frames w4)) w4))
      by (exists df'; simpl; rewrite lookup_insert_eq; auto).
    split; [exact Htr|]. split.
    + intros _ t Ht. rewrite Ht in H4.
      bind_inv H4 as Xte0 w5 H5. apply deref_Ok_inv in H5 as [-> H5].
      bind_inv H4 as [] w6 H6. apply py_assert_Ok_inv in H6 as [Hcols ->].
      apply bool_decide_eq_true in Hcols.
      apply set_index_inplace_Ok_inv in H4 as (te & te' & Hte & Hset & ->).
      apply set_index_Ok_inv in Hset as (_ & Hn' & Hnot' & _).
      split; [|eauto].
      destruct (decide (t = Args.X_train a)) as [->|Hne]; [exact Htr|].
      exists te'. simpl. rewrite lookup_insert_ne by auto.
      rewrite lookup_insert_eq. auto.
    + intros Hno. apply has_column_true in Hc. contradiction.
  - unfold ret in H2. injection H2 as <-.
    rewrite H1 in H3. injection H3 as <-.
    apply has_column_false in Hc.
    split; [exists Xtr0; auto|]. split; [contradiction | reflexivity].
Qed.

(** X1. Whenever lines 93-99 pass, the training frame is indexed by the
    identifier and does not have it as a column any more.  If it had
    the column, a test frame had the same column list and is now indexed
    by the identifier too; if it had not, nothing was changed, the test
    frame included. *)
Theorem index_is_established (a : Args.t) (w wN : World) :
  normalize_index a w = (Ok tt, wN) ->
  exists Xtr0,
    frames w !! Args.X_train a = Some Xtr0 /\
    indexed_by (Args.id_column a) (Args.X_train a) wN /\
    (Args.id_column a ∈ column_names Xtr0 ->
     forall t, Args.X_test a = Some t ->
               indexed_by (Args.id_column a) t wN /\
               exists Xte0, frames w !! t = Some Xte0 /\
                            column_names Xte0 = column_names Xtr0) /\
    (Args.id_column a ∉ column_names Xtr0 -> wN = w).
Proof. apply normalize_index_Ok_inv. Qed.

(** *** What reaches [cv] (lines 116-121) *)

Lemma dispatch_gbdt_Ok_inv g t ce model ev key gi :
  _dispatch_gbdt g t ce = Ok (model, ev, key, gi) ->
  supported g t /\
  is_classifier model = bool_decide (t = "binary") /\
  is_lightgbm model = bool_decide (g = "lgbm") /\
  key = (if bool_decide (g = "lgbm") then "categorical_feature" else "cat_features") /\
  ev = match ce with
       | Some f => f
       | None => if bool_decide (t = "binary") then roc_auc_score else mean_squared_error
       end.
Proof.
  unfold _dispatch_gbdt, gbdt_table; cbn [first_true row_matches].
  repeat (case_bool_decide; subst; cbn [andb]); intros [= <- <- <- <-];
    try congruence;
    (split; [unfold supported; auto|]); repeat split; try reflexivity;
    destruct ce; reflexivity.
Qed.

(** X2. [cv] is only ever called for a binary or a continuous target and
    for gbdt_type lgbm or cat: a multiclass target is rejected at the
    dispatch, before line 120.  So the stratification flag that [cv]
    receives is the caller's for a binary target and [False]
    otherwise. *)
Theorem cv_is_called_on_supported_pairs_only (a : Args.t) (w w1 : World)
    (c : CvArgs.t fitted) (imp : loc) :
  prepare_run a w = (Ok (c, imp), w1) ->
  supported (Args.gbdt_type a) (type_of_target (Args.y a)) /\
  CvArgs.stratified c
  = (if bool_decide (type_of_target (Args.y a) = "binary") then Args.stratified a else false).
Proof.
  intros H.
  apply prepare_run_inv in H
    as (wN & Xtr & model & ev & key & gi & d0 & _ & _ & Hd & _ & -> & _).
  apply dispatch_gbdt_Ok_inv in Hd as (Hs & _).
  split; [exact Hs|]. simpl. unfold resolved_stratified.
  destruct Hs as [[->| ->] _]; reflexivity.
Qed.

(** X3. The estimators handed to [cv] are [nfolds] objects (none for a
    negative [nfolds]), each built from the caller's [model_params]; they
    are classifiers exactly when the target is binary and LightGBM
    models exactly when gbdt_type is lgbm.  The metric handed to [cv] is
    the caller's when there is one, else AUC for a binary target and the
    mean squared error for a continuous one. *)
Theorem estimators_follow_the_target_type (a : Args.t) (w w1 : World)
    (c : CvArgs.t fitted) (imp : loc) :
  prepare_run a w = (Ok (c, imp), w1) ->
  length (CvArgs.models c) = Z.to_nat (Args.nfolds a) /\
  (forall e, e ∈ CvArgs.models c ->
             est_params e = Args.model_params a /\
             is_classifier (est_class e)
             = bool_decide (type_of_target (Args.y a) = "binary") /\
             is_lightgbm (est_class e) = bool_decide (Args.gbdt_type a = "lgbm")) /\
  CvArgs.eval c
  = Some match Args.eval a with
         | Some f => f
         | None => if bool_decide (type_of_target (Args.y a) = "binary")
                   then roc_auc_score else mean_squared_error
         end.
Proof.
  intros H.
  apply prepare_run_inv in H
    as (wN & Xtr & model & ev & key & gi & d0 & _ & _ & Hd & _ & -> & _).
  apply dispatch_gbdt_Ok_inv in Hd as (_ & Hc & Hl & _ & ->).
  simpl. split; [apply length_replicate|]. split; [|reflexivity].
  intros e He. apply elem_of_replicate in He as [-> _]. simpl. auto.
Qed.

(** *** Categorical features found by dtype (lines 112-114) *)



(** *** The module logger (lines 103-114) *)

Lemma append_files_at c hs : forall w p,
  files (foldl (append_file c) w hs) !! p
  = match length (filter (fun h => h = p) hs) with
    | 0 => files w !! p
    | S n => Some (default [] (files w !! p) ++ replicate (S n) c)%list
    end.
Proof.
  induction hs as [|h t IH]; intros w p; [reflexivity|].
  change (foldl (append_file c) w (h :: t))
    with (foldl (append_file c) (append_file c w h) t).
  rewrite IH, filter_cons.
  destruct (decide (h = p)) as [->|Hne].
  - cbn [length]. unfold append_file at 1 2; simpl. rewrite lookup_insert_eq. simpl.
    destruct (length (filter (fun h => h = p) t)) as [|n].
    + reflexivity.
    + rewrite <- app_assoc. reflexivity.
  - unfold append_file at 1 2; simpl. rewrite lookup_insert_ne by exact Hne.
    reflexivity.
Qed.

Lemma logger_info_attached r w x w' p l n :
  logger_info r w = (Ok x, w') ->
  files w !! p = Some l ->
  handlers_on p w = S n ->
  files w' !! p = Some (l ++ replicate (S n) (TextLine r))%list /\
  handlers_on p w' = S n.
Proof.
  unfold logger_info, handlers_on. intros H Hl Hn. injection H as _ <-. split.
  - rewrite append_files_at, Hn, Hl. reflexivity.
  - rewrite proj_append_files by (intros ? ?; reflexivity). exact Hn.
Qed.

(** X5. Each of the five records that lines 107-114 log is written to
    the run's log file once per handler of the module logger that is
    attached to that file: once for the handler the run has just added,
    and once more for every handler an earlier call left there.  The
    logged feature list is that of the training frame after lines
    93-99. *)
Theorem log_records_once_per_handler (a : Args.t) (w w1 : World)
    (c : CvArgs.t fitted) (imp : loc) :
  prepare_run a w = (Ok (c, imp), w1) ->
  exists Xtr,
    frames w1 !! Args.X_train a = Some Xtr /\
    files w1 !! os_path_join (Args.logging_directory a) "log.txt"
    = Some (default [] (files w !! os_path_join (Args.logging_directory a) "log.txt")
            ++ concat (map (fun r => replicate
                                       (S (handlers_on
                                             (os_path_join (Args.logging_directory a) "log.txt")
                                             w))
                                       (TextLine r))
                           (header_records a Xtr)))%list.
Proof.
  unfold prepare_run. cbv zeta. intros H.
  set (p := os_path_join (Args.logging_directory a) "log.txt") in *.
  bind_inv H as [] wN HN.
  bind_inv H as [] wD HD.
  bind_inv H as [] wH HH.
  bind_inv H as [] w2 H2.
  bind_inv H as [] w3 H3.
  bind_inv H as [] w4 H4.
  bind_inv H as Xtr w5 H5.
  bind_inv H as [] w6 H6.
  bind_inv H as [] w7 H7.
  bind_inv H as [[[model ev] key] gi] w8 H8.
  bind_inv H as imp' w9 H9.
  bind_inv H as fp w10 H10.
  bind_inv H as d w11 H11.
  bind_inv H as [] w12 H12.
  apply deref_Ok_inv in H5 as [-> H5].
  apply lift_inv in H8 as [-> H8].
  unfold ret in H. injection H as <- <- <-.
  kept files HN; kept handlers HN. kept files HD; kept handlers HD.
  kept frames H6; kept frames H7; kept frames H9; kept frames H10; kept frames H11;
    kept frames H12.
  kept files H9; kept files H10; kept files H11; kept files H12.
  assert (HfH : files wH !! p = Some (default [] (files w !! p)) /\
                handlers_on p wH = S (handlers_on p w)).
  { unfold logger_addHandler in HH. case_decide; [discriminate|].
    injection HH as <-. unfold handlers_on; simpl. split.
    - rewrite lookup_insert_eq. congruence.
    - rewrite filter_app, length_app, filter_cons, decide_True by reflexivity.
      simpl. rewrite Nat.add_comm. simpl. congruence. }
  destruct HfH as [Hf Hn].
  destruct (logger_info_attached _ _ _ _ _ _ _ H2 Hf Hn) as [Hf2 Hn2].
  destruct (logger_info_attached _ _ _ _ _ _ _ H3 Hf2 Hn2) as [Hf3 Hn3].
  destruct (logger_info_attached _ _ _ _ _ _ _ H4 Hf3 Hn3) as [Hf4 Hn4].
  destruct (logger_info_attached _ _ _ _ _ _ _ H6 Hf4 Hn4) as [Hf6 Hn6].
  destruct (logger_info_attached _ _ _ _ _ _ _ H7 Hf6 Hn6) as [Hf7 _].
  exists Xtr. split; [congruence|].
  replace (files w12) with (files w7) by congruence.
  rewrite Hf7. unfold header_records. simpl. rewrite app_nil_r, <- !app_assoc. reflexivity.
Qed.

(** X6. No call removes a handler from the module logger, and a call
    adds at most one, for the log file of its own directory; it has
    added it whenever it gets as far as calling [cv].  Handlers thus
    pile up from call to call.  ([cv] itself, whose code is not among
    the sources, is the modelled one: it logs through the handlers and
    leaves their list alone.) *)
Theorem handlers_pile_up (a : Args.t) (w : World) :
  (handlers (snd (experiment_gbdt a w)) = handlers w \/
   handlers (snd (experiment_gbdt a w))
   = (handlers w ++ [os_path_join (Args.logging_directory a) "log.txt"])%list) /\
  (forall c imp w1,
      prepare_run a (snd (time_time w)) = (Ok (c, imp), w1) ->
      handlers (snd (experiment_gbdt a w))
      = (handlers w ++ [os_path_join (Args.logging_directory a) "log.txt"])%list).
Proof.
  split.
  - rewrite experiment_gbdt_after_prepare by keeps_step.
    unfold prepare_run. cbv zeta. rewrite bind_run.
    destruct (normalize_index a _) as [[[]|e] wN] eqn:HN;
      kept handlers HN; simpl in K; [|left; exact K].
    rewrite bind_run.
    destruct (os_makedirs _ _ wN) as [[[]|e] wD] eqn:HD;
      kept handlers HD; [|left; simpl; congruence].
    rewrite bind_run.
    destruct (logger_addHandler _ wD) as [[[]|e] wH] eqn:HH.
    + right. apply logger_addHandler_Ok in HH as [_ HH].
      apply keeps_at; [solve_keeps | congruence].
    + left. unfold logger_addHandler in HH. case_decide; [|discriminate].
      injection HH as _ <-. simpl. congruence.
  - intros c imp w1 Hp.
    rewrite experiment_gbdt_after_prepare by keeps_step. rewrite Hp. simpl.
    now apply prepare_run_inv in Hp
      as (wN & Xtr & model & ev & key & gi & d0 & _ & _ & _ & _ & _ & _ & _ & Hh & _).
Qed.

(** *** Paths *)



Lemma os_path_join_absolute a b :
  String.prefix "/" b = true -> os_path_join a b = b.
Proof. intros Hb. unfold os_path_join. now rewrite Hb. Qed.





(** *** Failures after the first effects (lines 101-117) *)




(** X8. When the output location exists as a regular file, the call
    raises [FileExistsError] whether [overwrite] is set or not (frames
    that pass lines 93-99 assumed), and no file or directory is
    touched. *)
Theorem output_location_is_a_file (a : Args.t) (w : World) :
  index_ready a w ->
  Args.logging_directory a ∉ dirs w ->
  is_Some (files w !! Args.logging_directory a) ->
  exists w',
    experiment_gbdt a w = (Raise (FileExistsError (Args.logging_directory a)), w') /\
    dirs w' = dirs w /\ files w' = files w.
Proof.
  intros Hr Hd Hf.
  destruct (normalize_index_ready a (snd (time_time w)) Hr) as (wN & HN).
  kept dirs HN; kept files HN. simpl in K, K0.
  exists wN. split; [|auto].
  rewrite experiment_gbdt_run. unfold prepare_run. cbv zeta.
  rewrite (bind_Ok _ _ _ _ _ HN). rewrite bind_run.
  unfold os_makedirs. rewrite decide_False by now rewrite K.
  rewrite decide_True by now rewrite K0. reflexivity.
Qed.

(** *** The artifacts (lines 141-156) *)

Lemma write_file_Ok_inv path c w x w' :
  write_file path c w = (Ok x, w') ->
  w' = set_files (<[path := [c]]> (files w)) w.
Proof. unfold write_file. case_decide; intros E; inversion E; reflexivity. Qed.

Lemma store_results_files a start imp result w r w' :
  store_results a start imp result w = (Ok r, w') ->
  exists t Xte header rows,
    Args.X_test a = Some t /\
    frames w !! t = Some Xte /\
    submit_frame (Args.id_column a) (index Xte) (s_name (Args.y a))
      (cv_predicted_test result) = Ok (header, rows) /\
    files w'
    = <[os_path_join (Args.logging_directory a) (Args.submission_filename a)
        := [CsvTable header rows]]>
        (<[npy_path (os_path_join (Args.logging_directory a) "test")
           := [NpyArray (cv_predicted_test result)]]>
           (<[npy_path (os_path_join (Args.logging_directory a) "oof")
              := [NpyArray (Some (cv_predicted_oof result))]]>
              (<[os_path_join (Args.logging_directory a) "feature_importance.png"
                 := [PngBarChart (importance r)]]> (files w)))) /\
    frames w' = frames w.
Proof.
  unfold store_results. cbv zeta. intros H.
  bind_inv H as tables w2 H2.
  bind_inv H as tb w3 H3.
  bind_inv H as [] w4 H4.
  bind_inv H as [] w5 H5.
  bind_inv H as [] w6 H6.
  bind_inv H as idx w7 H7.
  bind_inv H as [header rows] w8 H8.
  bind_inv H as [] w9 H9.
  bind_inv H as end_time w10 H10.
  unfold ret in H. injection H as <- <-. simpl.
  apply deref_Ok_inv in H2 as [-> _].
  apply lift_inv in H3 as [-> _].
  apply write_file_Ok_inv in H4 as ->.
  apply write_file_Ok_inv in H5. apply write_file_Ok_inv in H6.
  apply lift_inv in H8 as [-> H8].
  apply write_file_Ok_inv in H9.
  unfold time_time in H10. injection H10 as _ <-.
  destruct (Args.X_test a) as [t|]; [|discriminate].
  bind_inv H7 as Xte w11 H11. apply deref_Ok_inv in H11 as [-> H11].
  unfold ret in H7. injection H7 as <- <-.
  subst w9 w6 w5. simpl in H11.
  exists t, Xte, header, rows. repeat split; assumption || reflexivity.
Qed.

Lemma experiment_gbdt_Ok_inv a w r w' :
  experiment_gbdt a w = (Ok r, w') ->
  exists c imp w1 result w2,
    prepare_run a (snd (time_time w)) = (Ok (c, imp), w1) /\
    cv c w1 = (Ok result, w2) /\
    store_results a (hd 0%Q (clock w)) imp result w2 = (Ok r, w').
Proof.
  intros H. rewrite experiment_gbdt_run in H.
  destruct (prepare_run a _) as [[[c imp]|e] w1] eqn:Hp; [|discriminate].
  destruct (cv c w1) as [[result|e] w2] eqn:Hcv; [|discriminate].
  eauto 10.
Qed.


Lemma submit_frame_Ok_inv id_column idx name predicted header rows :
  submit_frame id_column idx name predicted = Ok (header, rows) ->
  header = (if bool_decide (name = Some id_column) then [name] else [Some id_column; name]) /\
  length rows = length idx /\
  (forall p, predicted = Some p -> length p = length idx) /\
  (forall p, predicted = Some p -> name ≠ Some id_column ->
             rows = zip_with (fun i v => [i; CNum v]) idx p).
Proof.
  unfold submit_frame. destruct predicted as [p|].
  - case_bool_decide as Hlen; [|discriminate].
    case_bool_decide as Hname; intros [= <- <-].
    + split; [reflexivity|]. split; [now rewrite length_map|].
      split; [now intros ? [= <-]|]. intros ? _ Hn. contradiction.
    + split; [reflexivity|].
      split; [rewrite length_zip_with; lia|].
      split; [now intros ? [= <-]|]. now intros ? [= <-] _.
  - case_bool_decide as Hname; intros [= <- <-];
      (split; [reflexivity|]); (split; [now rewrite length_map|]);
      split; intros ? [=].
Qed.

(** X10. The submission table of a call that returns has one row per
    row of the test frame.  Its header is the identifier column followed
    by the name of the label series, and its rows pair the test index
    with the returned test predictions -- unless the label series bears
    the name of the identifier column, in which case the table has that
    one column only. *)
Theorem submission_table (a : Args.t) (w w' : World) (r : GBDTResult) :
  experiment_gbdt a w = (Ok r, w') ->
  exists t Xte header rows,
    Args.X_test a = Some t /\
    frames w' !! t = Some Xte /\
    files w' !! os_path_join (Args.logging_directory a) (Args.submission_filename a)
    = Some [CsvTable header rows] /\
    length rows = length (index Xte) /\
    header = (if bool_decide (s_name (Args.y a) = Some (Args.id_column a))
              then [s_name (Args.y a)]
              else [Some (Args.id_column a); s_name (Args.y a)]) /\
    (forall p, predicted_test r = Some p ->
               s_name (Args.y a) ≠ Some (Args.id_column a) ->
               rows = zip_with (fun i v => [i; CNum v]) (index Xte) p).
Proof.
  intros H.
  apply experiment_gbdt_Ok_inv in H as (c & imp & w1 & result & w2 & _ & _ & H).
  pose proof (store_results_inv _ _ _ _ _ _ _ H) as (_ & Ht & _).
  apply store_results_files in H as (t & Xte & header & rows & HX & Hte & Hs & Hf & Hfr).
  apply submit_frame_Ok_inv in Hs as (Hh & Hlen & _ & Hrows).
  exists t, Xte, header, rows.
  split; [exact HX|]. split; [congruence|].
  split; [rewrite Hf; apply lookup_insert_eq|].
  split; [exact Hlen|]. split; [exact Hh|].
  intros p Hp. apply Hrows. congruence.
Qed.

(** X11. A [submission_filename] that starts with a slash is taken as
    it is: the submission table of a call that returns is then written
    to that path, not under the output directory. *)
Theorem absolute_submission_filename (a : Args.t) (w w' : World) (r : GBDTResult) :
  String.prefix "/" (Args.submission_filename a) = true ->
  experiment_gbdt a w = (Ok r, w') ->
  exists header rows,
    files w' !! Args.submission_filename a = Some [CsvTable header rows].
Proof.
  intros Habs H.
  apply experiment_gbdt_Ok_inv in H as (c & imp & w1 & result & w2 & _ & _ & H).
  apply store_results_files in H as (t & Xte & header & rows & _ & _ & _ & Hf & _).
  exists header, rows. rewrite Hf.
  rewrite (os_path_join_absolute _ _ Habs). apply lookup_insert_eq.
Qed.

(** X12. Without a test frame no call returns: whatever the other
    arguments and the store, the outcome is an exception. *)
Theorem no_return_without_test_frame (a : Args.t) (w : World) :
  Args.X_test a = None ->
  exists e w', experiment_gbdt a w = (Raise e, w').
Proof.
  intros Hnone.
  destruct (experiment_gbdt a w) as [[r|e] w'] eqn:H; [|eauto].
  apply experiment_gbdt_Ok_inv in H as (c & imp & w1 & result & w2 & _ & _ & H).
  apply store_results_inv in H as (_ & _ & _ & _ & Hsome & _). contradiction.
Qed.

(** X13. When no importance table has been collected (the callback was
    never called), lines 141-160 raise the [ValueError] of [pd.concat]
    before anything is written: the store is left as it was. *)
Theorem no_importance_table_no_artifact (a : Args.t) (start : Q) (imp : loc)
    (result : CVResult) (w : World) :
  lists w !! imp = Some [] ->
  store_results a start imp result w
  = (Raise (ValueError "No objects to concatenate"), w).
Proof.
  intros Hl. unfold store_results. cbv zeta.
  rewrite (bind_Ok _ _ _ _ _ (deref_Some lists imp w [] Hl)).
  reflexivity.
Qed.

(** *** What the call leaves alone, and what it creates *)

Lemma set_index_inplace_other c l' l w :
  l' ≠ l -> frames (snd (set_index_inplace c l' w)) !! l = frames w !! l.
Proof.
  intros Hne. unfold set_index_inplace, get_frame, deref, lift, put_frame.
  rewrite !bind_run. destruct (frames w !! l') as [df|]; [|reflexivity].
  destruct (set_index c df) as [df'|e]; [|reflexivity].
  simpl. now rewrite lookup_insert_ne.
Qed.

Lemma normalize_index_other a w l :
  l ≠ Args.X_train a -> Args.X_test a ≠ Some l ->
  frames (snd (normalize_index a w)) !! l = frames w !! l.
Proof.
  intros Htr Hte.
  revert w. change (keeps (fun w => frames w !! l) (normalize_index a)).
  assert (Hset : forall c l', l' ≠ l -> keeps (fun w => frames w !! l) (set_index_inplace c l'))
    by (intros c l' Hne w; now apply set_index_inplace_other).
  unfold normalize_index. cbv zeta.
  apply keeps_bind; [apply keeps_deref|intros Xtr].
  apply keeps_bind.
  - destruct (has_column _ Xtr); [|apply keeps_ret].
    apply keeps_bind; [|intros _; apply Hset; auto].
    destruct (Args.X_test a) as [t|]; [|apply keeps_ret].
    apply keeps_bind; [apply keeps_deref|intros Xte].
    apply keeps_bind; [apply keeps_py_assert|intros _].
    apply Hset. congruence.
  - intros _. apply keeps_bind; [apply keeps_deref|intros X]. apply keeps_py_assert.
Qed.

(** X14. The only frame objects a call can change are the two it is
    given: every other frame of the store is, after the call, what it
    was before, however the call ends.  ([cv] itself, whose code is not
    among the sources, is the modelled one: it reads the frames and
    writes none.) *)
Theorem other_frames_are_untouched (a : Args.t) (w : World) (l : loc) :
  l ≠ Args.X_train a -> Args.X_test a ≠ Some l ->
  frames (snd (experiment_gbdt a w)) !! l = frames w !! l.
Proof.
  intros Htr Hte. rewrite experiment_gbdt_frames.
  now rewrite normalize_index_other.
Qed.

(** X15. When the caller passes no [fit_params], [cv] gets a new
    dictionary with a single entry: the categorical feature list, under
    "categorical_feature" for gbdt_type lgbm and under "cat_features"
    for cat. *)
Theorem omitted_fit_params (a : Args.t) (w w1 : World) (c : CvArgs.t fitted) (imp : loc) :
  Args.fit_params a = None ->
  prepare_run a w = (Ok (c, imp), w1) ->
  exists Xtr,
    frames w1 !! Args.X_train a = Some Xtr /\
    dicts w1 !! CvArgs.fit_params c
    = Some {[ (if bool_decide (Args.gbdt_type a = "lgbm")
               then "categorical_feature" else "cat_features")
              := PyStrList (resolved_categorical a Xtr) ]}.
Proof.
  intros Hnone H.
  apply prepare_run_inv in H
    as (wN & Xtr & model & ev & key & gi & d0 & _ & HX & Hd & _ & -> & Hf & _ & _ & H0 & H1 & _).
  apply dispatch_gbdt_Ok_inv in Hd as (_ & _ & _ & -> & _).
  unfold fit_params_before in H0. rewrite Hnone in H0. subst d0.
  exists Xtr. split; [congruence|]. simpl. rewrite H1.
  rewrite decide_False by (rewrite dom_empty_L; apply not_elem_of_empty).
  now rewrite insert_empty.
Qed.

(** *** The exceptions of lines 93-135 *)








(** *** Lines 141-160, forwards *)

Lemma write_file_Ok path c w :
  path ∉ dirs w -> write_file path c w = (Ok tt, set_files (<[path := [c]]> (files w)) w).
Proof. intros H. unfold write_file. now rewrite decide_False. Qed.

Ltac write_next H :=
  match goal with
  | |- context [bind (write_file ?p ?c) _ ?w0] =>
      rewrite (bind_Ok _ _ _ _ _ (write_file_Ok p c w0 H))
  end.

(** X17. Without a test frame, and with at least one importance table
    collected, lines 141-160 write [feature_importance.png], [oof.npy]
    and also [test.npy] (holding whatever test predictions [cv]
    returned) and only then raise [AttributeError]; nothing else of the
    store is changed. *)
Theorem three_files_before_the_attribute_error (a : Args.t) (start : Q) (imp : loc)
    (result : CVResult) (w : World) (t0 : importance_table) (ts : list importance_table) :
  Args.X_test a = None ->
  lists w !! imp = Some (t0 :: ts) ->
  os_path_join (Args.logging_directory a) "feature_importance.png" ∉ dirs w ->
  npy_path (os_path_join (Args.logging_directory a) "oof") ∉ dirs w ->
  npy_path (os_path_join (Args.logging_directory a) "test") ∉ dirs w ->
  store_results a start imp result w
  = (Raise (AttributeError "'NoneType' object has no attribute 'index'"),
     set_files
       (<[npy_path (os_path_join (Args.logging_directory a) "test")
          := [NpyArray (cv_predicted_test result)]]>
          (<[npy_path (os_path_join (Args.logging_directory a) "oof")
             := [NpyArray (Some (cv_predicted_oof result))]]>
             (<[os_path_join (Args.logging_directory a) "feature_importance.png"
                := [PngBarChart (sort_values_desc (groupby_mean (concat (t0 :: ts))))]]>
                (files w)))) w).
Proof.
  intros Hnone Hl H1 H2 H3. unfold store_results. cbv zeta.
  rewrite (bind_Ok _ _ _ _ _ (deref_Some lists imp w _ Hl)).
  rewrite (bind_Ok (lift _) _ w (concat (t0 :: ts)) w) by reflexivity.
  unfold plot_importance, np_save. fold (npy_path (os_path_join (Args.logging_directory a) "oof")).
  fold (npy_path (os_path_join (Args.logging_directory a) "test")).
  rewrite (bind_Ok _ _ _ _ _ (write_file_Ok _ _ w H1)).
  write_next H2. write_next H3.
  rewrite Hnone. reflexivity.
Qed.



(** *** Lines 93-135, forwards *)

Lemma dispatch_gbdt_supported g t ce :
  supported g t -> exists d, _dispatch_gbdt g t ce = Ok d.
Proof. intros [[-> | ->] [-> | ->]]; eexists; reflexivity. Qed.


(** *** The dispatch, both ways *)

Lemma dispatch_gbdt_getter g t ce model ev key gi :
  _dispatch_gbdt g t ce = Ok (model, ev, key, gi) ->
  gi = (if bool_decide (g = "lgbm") then _get_importance_lgbm else _get_importance_cat).
Proof.
  unfold _dispatch_gbdt, gbdt_table; cbn [first_true row_matches].
  repeat (case_bool_decide; subst; cbn [andb]); intros [= <- <- <- <-];
    try congruence; reflexivity.
Qed.

(** X20. The dispatch succeeds exactly on the pairs of the table,
    whether a custom evaluation function is given or not; the class it
    returns is a classifier exactly for a binary target and a LightGBM
    class exactly for gbdt_type lgbm, and the categorical parameter name
    and the importance getter depend on gbdt_type only. *)
Theorem dispatch_gbdt_decides (gbdt_type target_type : string) (custom_eval : option eval_fn) :
  ((exists d, _dispatch_gbdt gbdt_type target_type custom_eval = Ok d) <->
   supported gbdt_type target_type) /\
  (forall model ev key gi,
      _dispatch_gbdt gbdt_type target_type custom_eval = Ok (model, ev, key, gi) ->
      is_classifier model = bool_decide (target_type = "binary") /\
      is_lightgbm model = bool_decide (gbdt_type = "lgbm") /\
      key = (if bool_decide (gbdt_type = "lgbm") then "categorical_feature"
             else "cat_features") /\
      gi = (if bool_decide (gbdt_type = "lgbm") then _get_importance_lgbm
            else _get_importance_cat)).
Proof.
  split.
  - split; [|apply dispatch_gbdt_supported].
    intros ([[[model ev] key] gi] & H). now apply dispatch_gbdt_Ok_inv in H.
  - intros model ev key gi H.
    pose proof (dispatch_gbdt_Ok_inv _ _ _ _ _ _ _ H) as (_ & Hc & Hl & Hk & _).
    repeat (split; [assumption|]).
    now apply dispatch_gbdt_getter in H.
Qed.
End properties.

(** C1. Without a test frame the run of the toy instance does not
    return: it raises [AttributeError] at line 153, after having written
    [oof.npy] and also a [test.npy] that holds [None]; no submission
    file is written. *)
Theorem run_without_test_frame_raises :
  fst (experiment_gbdt Runs.args_no_test Toy.world0)
  = Raise (AttributeError "'NoneType' object has no attribute 'index'") /\
  files (snd (experiment_gbdt Runs.args_no_test Toy.world0)) !! "out/oof.npy"
  = Some [NpyArray (Some [5 # 2; 3 # 2; 5 # 2; 3 # 2]%Q)] /\
  files (snd (experiment_gbdt Runs.args_no_test Toy.world0)) !! "out/test.npy"
  = Some [NpyArray None] /\
  files (snd (experiment_gbdt Runs.args_no_test Toy.world0)) !! "out/submission.csv"
  = None.
Proof. vm_compute. repeat split. Qed.

Ltac by_computation := apply (bool_decide_unpack _); vm_compute; exact I.

(** C3, on the toy instance with the directory "out" already there. *)
Lemma existing_output_directory_witness :
  (exists w', experiment_gbdt (with_overwrite false Toy.args0) Runs.world_out_exists
              = (Raise (FileExistsError "out"), w') /\
              dirs w' = dirs Runs.world_out_exists /\
              files w' = files Runs.world_out_exists) /\
  handlers (snd (experiment_gbdt (with_overwrite true Toy.args0) Runs.world_out_exists))
  = ["out/log.txt"].
Proof.
  assert (Hd : "out" ∈ dirs Runs.world_out_exists) by by_computation.
  assert (Hr : forall b, index_ready (with_overwrite b Toy.args0) Runs.world_out_exists).
  { intros b. exists Toy.train_frame. split; [reflexivity|].
    simpl. split; [discriminate|]. exists Toy.test_frame. split; reflexivity. }
  split.
  - destruct (proj1 (existing_output_directory (with_overwrite false Toy.args0)
                       Runs.world_out_exists Hd) eq_refl)
      as (e & w' & Hrun & Hdirs & Hfiles & He).
    exists w'. rewrite (He (Hr false)) in Hrun. auto.
  - apply (proj2 (existing_output_directory (with_overwrite true Toy.args0)
                    Runs.world_out_exists Hd) eq_refl (Hr true)).
    by_computation.
Defined.

(** C4, on the toy instance with mean absolute error as [eval]. *)
Lemma overall_score_is_eval_on_oof_witness :
  exists r w',
    experiment_gbdt (with_eval (Some (custom_eval_fn Toy.mae)) Toy.args0) Toy.world0
    = (Ok r, w') /\
    last (scores r)
    = Some (Toy.mae (s_values Toy.labels) (predicted_oof r)).
Proof.
  destruct (experiment_gbdt (with_eval (Some (custom_eval_fn Toy.mae)) Toy.args0)
              Toy.world0) as [[r|e] w'] eqn:E.
  - exists r, w'. split; [reflexivity|].
    apply (overall_score_is_eval_on_oof
             (with_eval (Some (custom_eval_fn Toy.mae)) Toy.args0) Toy.world0 w' r
             (custom_eval_fn Toy.mae) eq_refl eq_refl E).
  - vm_compute in E. discriminate E.
Defined.

(** C5, as amended, on the frames of the toy instance. *)
Lemma identifier_column_normalization_witness :
  exists wN,
    normalize_index Toy.args0 Toy.world0 = (Ok tt, wN) /\
    indexed_by "user_id" 0 wN /\
    forall t, Some 1 = Some t -> indexed_by "user_id" t wN.
Proof.
  apply (proj1 (identifier_column_normalization Toy.args0 Toy.world0 Toy.train_frame eq_refl)).
  - by_computation.
  - simpl. split; [discriminate|]. exists Toy.test_frame. split; reflexivity.
Defined.

(** C5 fails as stated.  The training frame is already indexed by
    "user_id" while the test frame still has "user_id" as a column, so
    the identifier column is in one frame and not in the other: yet the
    run does not raise, and the test frame is not indexed by the
    identifier afterwards. *)
Lemma unchecked_test_frame_counterexample :
  ~ (("user_id" ∈ column_names Toy.test_frame) /\
     ("user_id" ∉ column_names Runs.indexed_train_frame) ->
     exists e w', experiment_gbdt Toy.args0 Runs.world_indexed_train = (Raise e, w')) /\
  ~ indexed_by "user_id" 1 (snd (experiment_gbdt Toy.args0 Runs.world_indexed_train)).
Proof.
  split.
  - intros H. destruct H as (e & w' & E); [split; by_computation|].
    vm_compute in E. discriminate E.
  - intros (df & Hdf & Hi & _).
    vm_compute in Hdf. injection Hdf as <-. discriminate Hi.
Qed.

(** C6, on the toy instance, whose labels are continuous: the call
    that asks for stratification returns, as the one that does not. *)
Lemma continuous_target_is_never_stratified_witness :
  ((forall c imp w1,
       prepare_run (with_stratified true Toy.args0) Toy.world0 = (Ok (c, imp), w1) ->
       CvArgs.stratified c = false) /\
   experiment_gbdt (with_stratified true (with_stratified true Toy.args0)) Toy.world0
   = experiment_gbdt (with_stratified false (with_stratified true Toy.args0)) Toy.world0) /\
  exists r w', experiment_gbdt (with_stratified true Toy.args0) Toy.world0 = (Ok r, w').
Proof.
  split.
  - apply (continuous_target_is_never_stratified (with_stratified true Toy.args0) Toy.world0).
    reflexivity.
  - destruct (experiment_gbdt (with_stratified true Toy.args0) Toy.world0)
      as [[r|e] w'] eqn:E; [eauto|].
    vm_compute in E. discriminate E.
Defined.

(** C8, on the toy instance. *)
Lemma importance_is_mean_over_folds_sorted_witness :
  exists r w' c imp w1 result w2 tables,
    experiment_gbdt Toy.args0 Toy.world0 = (Ok r, w') /\
    prepare_run Toy.args0 (snd (time_time Toy.world0)) = (Ok (c, imp), w1) /\
    cv c w1 = (Ok result, w2) /\
    lists w2 !! imp = Some tables /\
    aggregated (concat tables) (importance r).
Proof.
  destruct (experiment_gbdt Toy.args0 Toy.world0) as [[r|e] w'] eqn:E.
  - destruct (importance_is_mean_over_folds_sorted _ _ _ _ E)
      as (c & imp & w1 & result & w2 & tables & H).
    exists r, w', c, imp, w1, result, w2, tables. split; [reflexivity | exact H].
  - vm_compute in E. discriminate E.
Defined.

(** C9, on the toy instance with a [fit_params] dictionary of the
    caller that has no "categorical_feature" entry. *)
Lemma experiment_gbdt_mutates_its_arguments_witness :
  (indexed_by "user_id" 0 (snd (experiment_gbdt Runs.args_with_params Runs.world_with_params)) /\
   indexed_by "user_id" 1 (snd (experiment_gbdt Runs.args_with_params Runs.world_with_params))) /\
  exists cats,
    dicts (snd (experiment_gbdt Runs.args_with_params Runs.world_with_params)) !! 2
    = Some (<["categorical_feature" := PyStrList cats]> Runs.caller_params).
Proof.
  pose proof (experiment_gbdt_mutates_its_arguments Runs.args_with_params Runs.world_with_params) as [H1 H2].
  split.
  - destruct (H1 Toy.train_frame eq_refl) as [Ha Hb]; clear H1.
    + by_computation.
    + intros t [= <-]. exists Toy.test_frame. split; reflexivity.
    + split; [exact Ha | exact (Hb 1 eq_refl)].
  - destruct (prepare_run Runs.args_with_params (snd (time_time Runs.world_with_params)))
      as [[[c imp]|e] w1] eqn:E.
    + apply (H2 2 Runs.caller_params c imp w1 LGBMRegressor mean_squared_error
               "categorical_feature" _get_importance_lgbm eq_refl eq_refl eq_refl eq_refl eq_refl).
    + vm_compute in E. discriminate E.
Defined.

(** C10, on the toy instance, with a caller whose [fit_params] already
    names "age" as the only categorical feature: the dictionary reaches
    [cv] as it was, although "city" is the column detected by dtype. *)
Lemma categorical_feature_kept_when_given_witness :
  auto_categorical Toy.train_frame = ["city"] /\
  exists c imp w1,
    prepare_run Runs.args_with_params Runs.world_with_explicit_params = (Ok (c, imp), w1) /\
    dicts w1 !! CvArgs.fit_params c = Some Runs.explicit_params.
Proof.
  split; [reflexivity|].
  destruct (prepare_run Runs.args_with_params Runs.world_with_explicit_params)
    as [[[c imp]|e] w1] eqn:E.
  - destruct (categorical_feature_kept_when_given _ _ _ _ _ E)
      as (Xtr & model & ev & key & gi & d0 & d1 & _ & Hd & H0 & H1 & Hkept & _).
    exists c, imp, w1. split; [reflexivity|].
    vm_compute in Hd. injection Hd as <- <- <- <-.
    assert (d0 = Runs.explicit_params) as ->
      by (apply (inj Some); rewrite <- H0; vm_compute; reflexivity).
    rewrite (Hkept (PyStrList ["age"])) in H1 by (vm_compute; reflexivity).
    exact H1.
  - vm_compute in E. discriminate E.
Defined.

(** * Further runs of the toy instance *)

Lemma toy_index_ready (a : Args.t) (w : World) :
  Args.X_train a = 0 -> Args.X_test a = Some 1 -> Args.id_column a = "user_id" ->
  frames w !! 0 = Some Toy.train_frame -> frames w !! 1 = Some Toy.test_frame ->
  index_ready a w.
Proof.
  intros Htr Hte Hid H0 H1. exists Toy.train_frame. rewrite Htr, Hte, Hid.
  split; [exact H0|]. simpl. split; [discriminate|].
  exists Toy.test_frame. split; [exact H1 | reflexivity].
Qed.

(** X1, on the frames of the toy instance: both frames had the
    identifier as a column and are indexed by it afterwards. *)
Lemma index_is_established_witness :
  exists wN,
    normalize_index Toy.args0 Toy.world0 = (Ok tt, wN) /\
    indexed_by "user_id" 0 wN /\ indexed_by "user_id" 1 wN.
Proof.
  destruct (normalize_index Toy.args0 Toy.world0) as [[[]|e] wN] eqn:E.
  - destruct (index_is_established _ _ _ E) as (Xtr0 & H0 & Hi & Hc & _).
    assert (Xtr0 = Toy.train_frame) as ->
      by (apply (inj Some); rewrite <- H0; reflexivity).
    assert (Hin : "user_id" ∈ column_names Toy.train_frame) by by_computation.
    destruct (Hc Hin 1 eq_refl) as [Ht _].
    exists wN. split; [reflexivity|]. split; [exact Hi | exact Ht].
  - vm_compute in E. discriminate E.
Defined.

(** X2, on the toy instance, whose labels are continuous, asked to
    stratify. *)
Lemma cv_is_called_on_supported_pairs_only_witness :
  exists c imp w1,
    prepare_run (with_stratified true Toy.args0) Toy.world0 = (Ok (c, imp), w1) /\
    supported "lgbm" "continuous" /\
    CvArgs.stratified c = false.
Proof.
  destruct (prepare_run (with_stratified true Toy.args0) Toy.world0)
    as [[[c imp]|e] w1] eqn:E.
  - exists c, imp, w1. split; [reflexivity|].
    apply (cv_is_called_on_supported_pairs_only _ _ _ _ _ E).
  - vm_compute in E. discriminate E.
Defined.

(** X3, on the toy instance: two regressors of LightGBM and the mean
    squared error. *)
Lemma estimators_follow_the_target_type_witness :
  exists c imp w1,
    prepare_run Toy.args0 Toy.world0 = (Ok (c, imp), w1) /\
    length (CvArgs.models c) = 2 /\
    (forall e, e ∈ CvArgs.models c ->
               est_params e = ∅ /\
               is_classifier (est_class e) = false /\
               is_lightgbm (est_class e) = true) /\
    CvArgs.eval c = Some mean_squared_error.
Proof.
  destruct (prepare_run Toy.args0 Toy.world0) as [[[c imp]|e] w1] eqn:E.
  - exists c, imp, w1. split; [reflexivity|].
    apply (estimators_follow_the_target_type _ _ _ _ _ E).
  - vm_compute in E. discriminate E.
Defined.


(** X5, on a second call for the same directory: [log.txt] keeps what
    the first call left, and every record is there twice. *)
Lemma log_records_once_per_handler_witness :
  exists c imp w1 Xtr,
    prepare_run Toy.args0 Runs.world_second_call = (Ok (c, imp), w1) /\
    frames w1 !! 0 = Some Xtr /\
    files w1 !! "out/log.txt"
    = Some (RawData "earlier"
              :: concat (map (fun r => [TextLine r; TextLine r])
                           (header_records Toy.args0 Xtr))).
Proof.
  destruct (prepare_run Toy.args0 Runs.world_second_call) as [[[c imp]|e] w1] eqn:E.
  - destruct (log_records_once_per_handler _ _ _ _ _ E) as (Xtr & HX & Hf).
    exists c, imp, w1, Xtr. split; [reflexivity|]. split; [exact HX | exact Hf].
  - vm_compute in E. discriminate E.
Defined.

(** X6, on the second call: the handler of the first call is still
    there, and one more for the same file. *)
Lemma handlers_pile_up_witness :
  handlers (snd (experiment_gbdt Toy.args0 Runs.world_second_call))
  = ["out/log.txt"; "out/log.txt"].
Proof.
  destruct (prepare_run Toy.args0 (snd (time_time Runs.world_second_call)))
    as [[[c imp]|e] w1] eqn:E.
  - apply (proj2 (handlers_pile_up Toy.args0 Runs.world_second_call) c imp w1 E).
  - vm_compute in E. discriminate E.
Defined.


(** X8, on the toy instance with a regular file at "out", with and
    without [overwrite]. *)
Lemma output_location_is_a_file_witness :
  (exists w',
      experiment_gbdt (with_overwrite true Toy.args0) Runs.world_out_is_file
      = (Raise (FileExistsError "out"), w') /\
      dirs w' = dirs Runs.world_out_is_file /\ files w' = files Runs.world_out_is_file) /\
  (exists w',
      experiment_gbdt (with_overwrite false Toy.args0) Runs.world_out_is_file
      = (Raise (FileExistsError "out"), w') /\
      dirs w' = dirs Runs.world_out_is_file /\ files w' = files Runs.world_out_is_file).
Proof.
  split.
  - apply (output_location_is_a_file (with_overwrite true Toy.args0) Runs.world_out_is_file).
    + apply toy_index_ready; reflexivity.
    + by_computation.
    + eexists; reflexivity.
  - apply (output_location_is_a_file (with_overwrite false Toy.args0) Runs.world_out_is_file).
    + apply toy_index_ready; reflexivity.
    + by_computation.
    + eexists; reflexivity.
Defined.


(** X10, on the toy instance: two rows, for the two rows of the test
    frame. *)
Lemma submission_table_witness :
  exists r w' Xte rows,
    experiment_gbdt Toy.args0 Toy.world0 = (Ok r, w') /\
    frames w' !! 1 = Some Xte /\
    files w' !! "out/submission.csv"
    = Some [CsvTable [Some "user_id"; Some "target"] rows] /\
    length rows = length (index Xte) /\
    forall p, predicted_test r = Some p ->
              rows = zip_with (fun i v => [i; CNum v]) (index Xte) p.
Proof.
  destruct (experiment_gbdt Toy.args0 Toy.world0) as [[r|e] w'] eqn:E.
  - destruct (submission_table _ _ _ _ E)
      as (t & Xte & header & rows & Ht & HX & Hf & Hl & Hh & Hr).
    injection Ht as <-. simpl in Hh. subst header.
    exists r, w', Xte, rows. split; [reflexivity|].
    split; [exact HX|]. split; [exact Hf|]. split; [exact Hl|].
    intros p Hp. apply (Hr p Hp). discriminate.
  - vm_compute in E. discriminate E.
Defined.

(** X11, on the toy instance with an absolute submission path. *)
Lemma absolute_submission_filename_witness :
  exists r w' header rows,
    experiment_gbdt Runs.args_absolute Toy.world0 = (Ok r, w') /\
    files w' !! "/tmp/submission.csv" = Some [CsvTable header rows] /\
    files w' !! "out/submission.csv" = None.
Proof.
  destruct (experiment_gbdt Runs.args_absolute Toy.world0) as [[r|e] w'] eqn:E.
  - destruct (absolute_submission_filename Runs.args_absolute Toy.world0 w' r eq_refl E) as (header & rows & H).
    exists r, w', header, rows. split; [reflexivity|]. split; [exact H|].
    vm_compute in E. injection E as _ <-. reflexivity.
  - vm_compute in E. discriminate E.
Defined.

(** X12, on the call of the tests without the test frame. *)
Lemma no_return_without_test_frame_witness :
  exists e w', experiment_gbdt Runs.args_no_test Toy.world0 = (Raise e, w').
Proof. apply (no_return_without_test_frame Runs.args_no_test Toy.world0). reflexivity. Defined.

(** X13, on a store whose callback list is empty. *)
Lemma no_importance_table_no_artifact_witness :
  store_results Toy.args0 0 2 Runs.cv_result Runs.world_nothing_collected
  = (Raise (ValueError "No objects to concatenate"), Runs.world_nothing_collected).
Proof.
  apply (no_importance_table_no_artifact Toy.args0 0 2 Runs.cv_result
           Runs.world_nothing_collected).
  reflexivity.
Defined.

(** X14, on a store with a third frame at 2. *)
Lemma other_frames_are_untouched_witness :
  frames (snd (experiment_gbdt Toy.args0 Runs.world_three_frames)) !! 2
  = Some Runs.indexed_train_frame.
Proof.
  rewrite (other_frames_are_untouched Toy.args0 Runs.world_three_frames 2).
  - reflexivity.
  - discriminate.
  - discriminate.
Defined.

(** X15, on the toy instance. *)
Lemma omitted_fit_params_witness :
  exists c imp w1 Xtr,
    prepare_run Toy.args0 Toy.world0 = (Ok (c, imp), w1) /\
    frames w1 !! 0 = Some Xtr /\
    dicts w1 !! CvArgs.fit_params c
    = Some {["categorical_feature" := PyStrList (resolved_categorical Toy.args0 Xtr)]}.
Proof.
  destruct (prepare_run Toy.args0 Toy.world0) as [[[c imp]|e] w1] eqn:E.
  - destruct (omitted_fit_params Toy.args0 Toy.world0 w1 c imp eq_refl E) as (Xtr & HX & Hd).
    exists c, imp, w1, Xtr. split; [reflexivity|]. split; [exact HX | exact Hd].
  - vm_compute in E. discriminate E.
Defined.


(** X17, on a store with the tables of two folds and no test frame. *)
Lemma three_files_before_the_attribute_error_witness :
  exists w',
    store_results Runs.args_no_test 0 2 Runs.cv_result Runs.world_collected
    = (Raise (AttributeError "'NoneType' object has no attribute 'index'"), w') /\
    files w' !! "out/test.npy" = Some [NpyArray (Some [2; 2]%Q)] /\
    files w' !! "out/oof.npy" = Some [NpyArray (Some [5 # 2; 3 # 2; 5 # 2; 3 # 2]%Q)] /\
    is_Some (files w' !! "out/feature_importance.png") /\
    files w' !! "out/submission.csv" = None.
Proof.
  eexists. split.
  - apply (three_files_before_the_attribute_error Runs.args_no_test 0 2 Runs.cv_result
             Runs.world_collected
             [("age", 1%Q); ("city", 2%Q)] [[("age", 3%Q); ("city", 6%Q)]]).
    + reflexivity.
    + reflexivity.
    + by_computation.
    + by_computation.
    + by_computation.
  - split; [vm_compute; reflexivity|]. split; [vm_compute; reflexivity|].
    split; [eexists|]; vm_compute; reflexivity.
Defined.



(** X20, on the pair (cat, binary) with a custom metric, and on a
    multiclass target. *)
Lemma dispatch_gbdt_decides_witness :
  (exists d, _dispatch_gbdt "cat" "binary" (Some (custom_eval_fn Toy.mae)) = Ok d) /\
  ~ (exists d, _dispatch_gbdt "lgbm" "multiclass" None = Ok d).
Proof.
  split.
  - apply (proj1 (dispatch_gbdt_decides "cat" "binary" (Some (custom_eval_fn Toy.mae)))).
    split; [left | right]; reflexivity.
  - intros H.
    apply (proj1 (dispatch_gbdt_decides "lgbm" "multiclass" None)) in H.
    destruct H as [[H | H] _]; discriminate H.
Defined.
